(** * XRCrawler, Reddit platform: the harvesting pipeline

    A shallow embedding of
      - [platforms/reddit/scraper.py]                    (RedditScraper, scrape_reddit)
      - [platforms/reddit/scrapers/subreddit_scraper.py] (SubredditScraper)
      - [platforms/reddit/strategies/time_range.py]      (TimeRangeStrategy)
      - [platforms/reddit/strategies/search.py]          (SearchStrategy)
    and the properties of the harvesting subsystem stated over it.

    Python [int] is [Z]; [str] is [string]; a [set] of ids is a
    [gset string]; a result [dict] is a [gmap string Value]; a candidate
    is the tuple [(post_url, post_id)].  The collaborators the four files
    call but do not define (the paginated strategy, the user scraper, the
    rate controller, the HTTP session, the post store, the post fetcher,
    the clock) are the fields of one record, [Collab], acting on an
    abstract [World]. *)

From Stdlib Require Import ZArith String Ascii List Lia.
From stdpp Require Import base tactics option list gmap sets strings.

Local Open Scope string_scope.
Local Open Scope list_scope.
Local Open Scope Z_scope.

(** ** Python values *)

(** A candidate: [(post_url, post_id)]. *)
Definition Cand : Type := string * string.

(** [len(l)] as a Python [int]. *)
Definition len {A : Type} (l : list A) : Z := Z.of_nat (length l).

(** The exceptions the embedded code can meet. *)
Inductive PyExn : Type :=
| ValueError (msg : string)
| IndexError (msg : string)
| KeyError (key : string)
| NameError (msg : string)
| OtherError (msg : string).

(** A call either returns or raises. *)
Inductive Outcome (A : Type) : Type :=
| Returned (a : A)
| Raised (e : PyExn).
Arguments Returned {A} a.
Arguments Raised {A} e.

Definition raises {A : Type} (o : Outcome A) : Prop := ∃ e, o = Raised e.

(** ** Python string operations used by the target parser *)

Module PyStr.

(** [sub in s] *)
Definition contains (sub s : string) : bool :=
  match String.index 0 sub s with
  | Some _ => true
  | None => false
  end.

(** [s.startswith(p)] *)
Definition startswith (p s : string) : bool := String.prefix p s.

(** [s[k:]] *)
Definition from (k : nat) (s : string) : string :=
  String.substring k (String.length s - k)%nat s.

(** [s.split(sep)] for a non-empty [sep]: cut at the leftmost occurrence,
    continue after it.  Each cut removes at least one character, so
    [String.length s] rounds are enough. *)
Fixpoint split_fuel (fuel : nat) (sep s : string) : list string :=
  match fuel with
  | O => [s]
  | S fuel' =>
      match String.index 0 sep s with
      | Some k =>
          String.substring 0 k s
            :: split_fuel fuel' sep (from (k + String.length sep)%nat s)
      | None => [s]
      end
  end.

Definition split (sep s : string) : list string :=
  split_fuel (String.length s) sep s.

(** [l[0]] and [l[-1]] *)
Definition first (l : list string) : Outcome string :=
  match l with
  | x :: _ => Returned x
  | [] => Raised (IndexError "list index out of range")
  end.

Definition last (l : list string) : Outcome string :=
  match List.rev l with
  | x :: _ => Returned x
  | [] => Raised (IndexError "list index out of range")
  end.

(** [s[:n]] *)
Definition prefix_n (n : nat) (s : string) : string := String.substring 0 n s.

End PyStr.

(** ** Collaborators *)

(** The keyword arguments of one [PaginatedStrategy.fetch_posts] call
    (the progress callback is handed on unchanged and is left out). *)
Record PagCall : Type := mkPagCall {
  pc_target : string;
  pc_max_posts : Z;
  pc_sort_type : string;
  pc_time_filter : option string;
  pc_is_user_mode : bool
}.

(** What [session.get(...)] gives the search strategy.  [None] as the body
    is a payload on which [response.json()] or [data['data']['children']]
    raises; a child [None] is one on which [post['data']] or
    [post_data['id']] raises; a child with permalink [None] is one on which
    [post_data['permalink']] raises. *)
Definition Child : Type := option (string * option string).

Inductive HttpOutcome : Type :=
| HttpRaised
| HttpResponse (status_code : Z) (children : option (list Child)).

(** A fetched post, as [post_scraper.scrape_post] hands it back when its
    status is ['success'] (comments already attached). *)
Record PostData : Type := mkPostData {
  pd_title : string;
  pd_author : string;
  pd_score : Z;
  pd_comments : nat
}.

Record Collab : Type := mkCollab {
  World : Type;
  (** caller-supplied progress hook; a failure inside it is swallowed *)
  Callback : Type;
  run_callback : Callback → Z → Z → string → World → World;
  (** strategies.paginated.PaginatedStrategy.fetch_posts *)
  paginated_fetch_posts : PagCall → World → list Cand * World;
  (** scrapers.user_scraper.UserScraper.fetch_user_posts *)
  fetch_user_posts : string → Z → World → list Cand * World;
  (** core.rate_limiter.SmartRateController *)
  should_skip_strategy : World → bool;
  get_delay : World → Z * World;
  record_success : World → World;
  record_other_error : World → World;
  (** strategies.base.ScrapingStrategy._handle_rate_limit *)
  handle_rate_limit : World → World;
  (** time.sleep, time.time *)
  time_sleep : Z → World → World;
  time_time : World → Z;
  (** session.get(search_url, params={'q': keyword, ...}) *)
  session_get : string → string → World → HttpOutcome * World;
  (** local_storage.local_data_manager *)
  check_post_exists : string → World → bool;
  save_post : PostData → World → bool * World;
  get_posts_count : World → Z;
  (** post_scraper.RedditPostScraper.scrape_post *)
  scrape_post : string → World → option PostData * World;
  (** export_to_markdown.export_to_markdown, inside try/except *)
  export_to_markdown : string → World → World;
  (** the rest of [RedditScraper.__init__] after the target is parsed: the
      [print] and the constructions of [SmartRateController],
      [SessionManager], [UserScraper], [SubredditScraper] and [PostScraper];
      [Some e] when one of them raises [e] *)
  construct_components : World → option PyExn * World
}.

(** The calls a run makes, in order: a ghost trace kept beside the world. *)
Inductive Event : Type :=
| EvPaginated (c : PagCall)
| EvUserFetch (username : string) (max_posts : Z)
| EvTimeRange (target : string) (max_posts : Z)
              (time_ranges : option (list string)) (is_user_mode : bool)
| EvSearch (target : string) (max_posts : Z) (keywords : option (list string))
| EvHttpGet (url : string) (q : string)
| EvScrapePost (url : string).

Record Sys (E : Collab) : Type := mkSys {
  world : World E;
  trace : list Event
}.
Arguments mkSys {E} world trace.
Arguments world {E} s.
Arguments trace {E} s.

Definition is_strategy_call (ev : Event) : bool :=
  match ev with
  | EvTimeRange _ _ _ _ | EvSearch _ _ _ => true
  | _ => false
  end.

Definition is_paginated_call (ev : Event) : bool :=
  match ev with
  | EvPaginated _ => true
  | _ => false
  end.

Definition is_request (ev : Event) : bool :=
  match ev with
  | EvHttpGet _ _ => true
  | _ => false
  end.

(** The loop that the three files repeat:
<<
    for post_url, post_id in batch:
        if post_id not in collected_ids:
            acc.append((post_url, post_id))
            collected_ids.add(post_id)
>> *)
Fixpoint merge_new (batch acc : list Cand) (collected : gset string)
  : list Cand * gset string :=
  match batch with
  | [] => (acc, collected)
  | (post_url, post_id) :: rest =>
      if decide (post_id ∈ collected)
      then merge_new rest acc collected
      else merge_new rest (acc ++ [(post_url, post_id)]) ({[post_id]} ∪ collected)
  end.

(** ** strategies/time_range.py *)

Module TimeRangeStrategy.
Section WithCollab.
Context (E : Collab).

Definition default_time_ranges : list string :=
  ["day"; "week"; "month"; "year"; "all"].

(** The loop variables [post_urls] and [collected_ids]. *)
Record Acc : Type := mkAcc {
  post_urls : list Cand;
  collected_ids : gset string
}.

(** [min(max(100, max_posts - len(post_urls)), 1000)]: what one window's
    paginated strategy is asked for. *)
Definition window_quota (max_posts : Z) (acc : Acc) : Z :=
  let remaining := Z.max 100 (max_posts - len (post_urls acc)) in
  Z.min remaining 1000.

Definition window_call (target : string) (max_posts : Z) (is_user_mode : bool)
    (time_range : string) (acc : Acc) : PagCall :=
  {| pc_target := target;
     pc_max_posts := window_quota max_posts acc;
     pc_sort_type := "top";
     pc_time_filter := Some time_range;
     pc_is_user_mode := is_user_mode |}.

(** One pass of the loop body, after the quota test. *)
Definition window (target : string) (max_posts : Z) (is_user_mode : bool)
    (time_range : string) (acc : Acc) (s : Sys E) : Acc * Sys E :=
  let c := window_call target max_posts is_user_mode time_range acc in
  let '(batch_posts, w) := paginated_fetch_posts E c (world s) in
  let '(batch_new, collected) := merge_new batch_posts [] (collected_ids acc) in
  ({| post_urls := post_urls acc ++ batch_new; collected_ids := collected |},
   mkSys w (trace s ++ [EvPaginated c])).

(** [for time_range in time_ranges: if len(post_urls) >= max_posts: break ...] *)
Fixpoint windows (target : string) (max_posts : Z) (is_user_mode : bool)
    (time_ranges : list string) (acc : Acc) (s : Sys E) : Acc * Sys E :=
  match time_ranges with
  | [] => (acc, s)
  | time_range :: rest =>
      if max_posts <=? len (post_urls acc) then (acc, s)
      else
        let '(acc', s') := window target max_posts is_user_mode time_range acc s in
        windows target max_posts is_user_mode rest acc' s'
  end.

Definition fetch_posts (target : string) (max_posts : Z)
    (time_ranges : option (list string)) (is_user_mode : bool) (s : Sys E)
  : list Cand * Sys E :=
  let s0 := mkSys (world s)
              (trace s ++ [EvTimeRange target max_posts time_ranges is_user_mode]) in
  let time_ranges :=
    match time_ranges with
    | None | Some [] => default_time_ranges
    | Some l => l
    end in
  let '(acc, s') :=
    windows target max_posts is_user_mode time_ranges
      {| post_urls := []; collected_ids := ∅ |} s0 in
  (post_urls acc, s').

End WithCollab.
End TimeRangeStrategy.

(** ** strategies/search.py *)

Module SearchStrategy.
Section WithCollab.
Context (E : Collab).

(** The loop variables [post_urls] and [all_found_posts]. *)
Record Acc : Type := mkAcc {
  post_urls : list Cand;
  all_found_posts : gset string
}.

(** [max(1, max_posts // len(keywords))] *)
Definition posts_per_keyword (max_posts : Z) (keywords : list string) : Z :=
  Z.max 1 (max_posts / len keywords).

Definition search_url (target : string) : string :=
  "https://www.reddit.com/r/" +:+ target +:+ "/search.json".

Definition permalink_url (permalink : string) : string :=
  "https://www.reddit.com" +:+ permalink.

(** [for post in posts: ...] on a 200 response.  The flag is [true] when a
    lookup in the payload raised, which leaves the loop through the
    enclosing [except]; what was appended before stays appended. *)
Fixpoint scan (max_posts : Z) (posts : list Child) (acc : Acc) : Acc * bool :=
  match posts with
  | [] => (acc, false)
  | post :: rest =>
      if max_posts <=? len (post_urls acc) then (acc, false)
      else
        match post with
        | None => (acc, true)
        | Some (post_id, permalink) =>
            if decide (post_id ∈ all_found_posts acc) then scan max_posts rest acc
            else
              match permalink with
              | None => (acc, true)
              | Some p =>
                  scan max_posts rest
                    {| post_urls := post_urls acc ++ [(permalink_url p, post_id)];
                       all_found_posts := {[post_id]} ∪ all_found_posts acc |}
              end
        end
  end.

(** The [try] block for one keyword. *)
Definition search_keyword (target : string) (max_posts : Z) (keyword : string)
    (acc : Acc) (s : Sys E) : Acc * Sys E :=
  let '(delay, w1) := get_delay E (world s) in
  let w2 := time_sleep E (delay * 2) w1 in
  let '(response, w3) := session_get E (search_url target) keyword w2 in
  let tr := trace s ++ [EvHttpGet (search_url target) keyword] in
  match response with
  | HttpRaised => (acc, mkSys (record_other_error E w3) tr)
  | HttpResponse status_code body =>
      if status_code =? 200 then
        let w4 := record_success E w3 in
        match body with
        | None => (acc, mkSys (record_other_error E w4) tr)
        | Some posts =>
            let '(acc', raised) := scan max_posts posts acc in
            (acc', mkSys (if raised then record_other_error E w4 else w4) tr)
        end
      else if status_code =? 429 then (acc, mkSys (handle_rate_limit E w3) tr)
      else (acc, mkSys (record_other_error E w3) tr)
  end.

(** [for i, keyword in enumerate(keywords, 1): ...] *)
Fixpoint search_loop (target : string) (max_posts : Z) (keywords : list string)
    (acc : Acc) (s : Sys E) : Acc * Sys E :=
  match keywords with
  | [] => (acc, s)
  | keyword :: rest =>
      if max_posts <=? len (post_urls acc) then (acc, s)
      else if should_skip_strategy E (world s) then (acc, s)
      else
        let '(acc', s') := search_keyword target max_posts keyword acc s in
        search_loop target max_posts rest acc' s'
  end.

Definition fetch_posts (target : string) (max_posts : Z)
    (keywords : option (list string)) (s : Sys E) : list Cand * Sys E :=
  let s0 := mkSys (world s) (trace s ++ [EvSearch target max_posts keywords]) in
  match keywords with
  | None | Some [] => ([], s0)
  | Some kws =>
      let per_keyword := posts_per_keyword max_posts kws in
      if should_skip_strategy E (world s0) then ([], s0)
      else
        let '(acc, s') :=
          search_loop target max_posts kws
            {| post_urls := []; all_found_posts := ∅ |} s0 in
        (post_urls acc, s')
  end.

End WithCollab.
End SearchStrategy.

(** ** scrapers/subreddit_scraper.py *)

Module SubredditScraper.
Section WithCollab.
Context (E : Collab).

(** The merging loop of strategies 2 and 3, which leaves as soon as
    [len(all_post_urls) >= max_posts]:
<<
    for post_url, post_id in posts:
        if post_id not in collected_ids:
            all_post_urls.append((post_url, post_id))
            collected_ids.add(post_id)
            if len(all_post_urls) >= max_posts:
                break
>> *)
Fixpoint merge_until (max_posts : Z) (posts all_post_urls : list Cand)
    (collected_ids : gset string) : list Cand * gset string :=
  match posts with
  | [] => (all_post_urls, collected_ids)
  | (post_url, post_id) :: rest =>
      if decide (post_id ∈ collected_ids)
      then merge_until max_posts rest all_post_urls collected_ids
      else
        let all' := all_post_urls ++ [(post_url, post_id)] in
        let ids' := {[post_id]} ∪ collected_ids in
        if max_posts <=? len all' then (all', ids')
        else merge_until max_posts rest all' ids'
  end.

Definition primary_call (subreddit : string) (max_posts : Z) (sort_type : string)
  : PagCall :=
  {| pc_target := subreddit;
     pc_max_posts := max_posts;
     pc_sort_type := sort_type;
     pc_time_filter := None;
     pc_is_user_mode := false |}.

(** [if keywords] *)
Definition truthy (keywords : option (list string)) : bool :=
  match keywords with
  | None | Some [] => false
  | Some (_ :: _) => true
  end.

Definition fetch_subreddit_posts (subreddit : string) (max_posts : Z)
    (sort_type : string) (keywords : option (list string)) (s : Sys E)
  : list Cand * Sys E :=
  (* Strategy 1: primary sort method *)
  let c := primary_call subreddit max_posts sort_type in
  let '(primary_posts, w1) := paginated_fetch_posts E c (world s) in
  let s1 := mkSys w1 (trace s ++ [EvPaginated c]) in
  let '(all1, ids1) := merge_new primary_posts [] ∅ in
  if len all1 <? max_posts then
    let remaining := max_posts - len all1 in
    (* Strategy 2: time ranges, unless the primary sort was already 'top' *)
    let '(all2, ids2, s2) :=
      if negb (String.eqb sort_type "top") then
        let '(time_range_posts, s') :=
          TimeRangeStrategy.fetch_posts E subreddit remaining
            (Some ["week"; "month"; "year"]) false s1 in
        (merge_until max_posts time_range_posts all1 ids1, s')
      else (all1, ids1, s1) in
    (* Strategy 3: keyword search, if keywords were given *)
    if truthy keywords && (len all2 <? max_posts) then
      let remaining := max_posts - len all2 in
      let '(search_posts, s3) :=
        SearchStrategy.fetch_posts E subreddit remaining keywords s2 in
      ((merge_until max_posts search_posts all2 ids2).1, s3)
    else (all2, s2)
  else (all1, s1).

End WithCollab.
End SubredditScraper.

(** ** scraper.py *)

(** The values of a result [dict]; a clock reading is a number of ticks. *)
Inductive Value : Type :=
| VStr (s : string)
| VInt (n : Z)
| VTime (ticks : Z).

Module RedditScraper.

(** The attributes of a [RedditScraper] the methods read or write. *)
Record t : Type := mk {
  is_user_mode : bool;
  target_name : string;
  scraped_count : Z;
  skipped_count : Z;
  error_count : Z
}.

(** [parts = target.split(sep); if len(parts) > 1:
       self.target_name = parts[1].split("/")[0]] *)
Definition name_after (sep target : string) : Outcome string :=
  match PyStr.split sep target with
  | _ :: part :: _ => PyStr.first (PyStr.split "/" part)
  | _ => Returned target
  end.

Definition fresh (user_mode : bool) (name : string) : t :=
  {| is_user_mode := user_mode; target_name := name;
     scraped_count := 0; skipped_count := 0; error_count := 0 |}.

Definition with_name (user_mode : bool) (name : Outcome string) : Outcome t :=
  match name with
  | Returned n => Returned (fresh user_mode n)
  | Raised e => Raised e
  end.

(** The head of [__init__]: the target parsed into mode and name, the
    counters at zero. *)
Definition parse_target (target : string) : Outcome t :=
  if PyStr.contains "reddit.com" target then
    if PyStr.contains "/user/" target then
      with_name true (name_after "/user/" target)
    else if PyStr.contains "/r/" target then
      with_name false (name_after "/r/" target)
    else Returned (fresh false target)
  else if PyStr.startswith "u/" target || PyStr.startswith "user/" target then
    with_name true (PyStr.last (PyStr.split "/" target))
  else if PyStr.startswith "r/" target then
    with_name false (PyStr.last (PyStr.split "/" target))
  else Returned (fresh false target).

Section WithCollab.
Context (E : Collab).

(** [range(i, stop, step)] for [step >= 1]; it has at most [stop] items. *)
Fixpoint range_from (fuel i stop step : nat) : list nat :=
  match fuel with
  | O => []
  | S fuel' =>
      if (i <? stop)%nat then i :: range_from fuel' (i + step)%nat stop step
      else []
  end.

Definition range0 (stop step : nat) : list nat := range_from stop 0%nat stop step.

(** [existing_ids = set(); for post_id in post_ids:
       if check_post_exists(post_id): existing_ids.add(post_id)] *)
Definition existing_ids_of (post_ids : list string) (w : World E) : gset string :=
  foldl (λ existing_ids post_id,
           if check_post_exists E post_id w then {[post_id]} ∪ existing_ids
           else existing_ids)
        ∅ post_ids.

(** The body of the loop over batches: what one batch adds to [new_posts]. *)
Definition filter_batch (batch : list Cand) (w : World E) : list Cand :=
  let post_ids := batch.*2 in
  let existing_ids := existing_ids_of post_ids w in
  filter (λ c : Cand, c.2 ∉ existing_ids) batch.

Definition filter_batches (post_urls : list Cand) (batch_size : nat) (w : World E)
  : list Cand :=
  foldl (λ new_posts i,
           new_posts ++ filter_batch (take batch_size (drop i post_urls)) w)
        [] (range0 (length post_urls) batch_size).

Definition _filter_existing_posts (post_urls : list Cand) (batch_size : Z)
    (w : World E) : Outcome (list Cand) :=
  if batch_size =? 0 then Raised (ValueError "range() arg 3 must not be zero")
  else if batch_size <? 0 then Returned []
  else Returned (filter_batches post_urls (Z.to_nat batch_size) w).

Definition default_batch_size : Z := 100.

(** Step 3 of [scrape]: [for i, (post_url, post_id) in enumerate(post_urls, 1)].
    [n] is [len(post_urls)], [count] is [self.scraped_count]. *)
Fixpoint fetch_details (max_posts : Z) (progress_callback : option (Callback E))
    (n i : Z) (post_urls : list Cand) (count : Z) (s : Sys E) : Z * Sys E :=
  match post_urls with
  | [] => (count, s)
  | (post_url, post_id) :: rest =>
      if max_posts <=? count then (count, s)
      else
        let '(result, w1) := scrape_post E post_url (world s) in
        let tr := trace s ++ [EvScrapePost post_url] in
        let '(count', w2) :=
          match result with
          | Some post_data =>
              let '(_, wa) := save_post E post_data w1 in
              let note :=
                "Scraped: " +:+ PyStr.prefix_n 30 (pd_title post_data) +:+ "..." in
              (count + 1,
               match progress_callback with
               | Some f => run_callback E f (count + 1) max_posts note wa
               | None => wa
               end)
          | None => (count, w1)
          end in
        let w3 :=
          if i <? n then
            let '(delay, wd) := get_delay E w2 in time_sleep E delay wd
          else w2 in
        fetch_details max_posts progress_callback n (i + 1) rest count' (mkSys w3 tr)
  end.

Definition error_result : gmap string Value :=
  <["status" := VStr "error"]> (<["message" := VStr "No posts found"]> ∅).

Definition all_scraped_result : gmap string Value :=
  <["status" := VStr "success"]>
    (<["scraped_count" := VInt 0]>
       (<["message" := VStr "All posts already scraped"]> ∅)).

Definition success_result (count total elapsed : Z) : gmap string Value :=
  <["status" := VStr "success"]>
    (<["scraped_count" := VInt count]>
       (<["total_posts_in_db" := VInt total]>
          (<["elapsed_time" := VTime elapsed]> ∅))).

(** Step 1 of [scrape]: the candidate list of the coordinator for the mode. *)
Definition fetch_post_urls (self : t) (max_posts : Z) (sort_type : string)
    (keywords : option (list string)) (s : Sys E) : list Cand * Sys E :=
  if is_user_mode self then
    let '(posts, w) := fetch_user_posts E (target_name self) max_posts (world s) in
    (posts, mkSys w (trace s ++ [EvUserFetch (target_name self) max_posts]))
  else
    SubredditScraper.fetch_subreddit_posts E (target_name self) max_posts
      sort_type keywords s.

Definition with_count (self : t) (count : Z) : t :=
  {| is_user_mode := is_user_mode self; target_name := target_name self;
     scraped_count := count; skipped_count := skipped_count self;
     error_count := error_count self |}.

Definition scrape (self : t) (max_posts : Z) (sort_type : string)
    (keywords : option (list string)) (progress_callback : option (Callback E))
    (s : Sys E) : Outcome (gmap string Value) * t * Sys E :=
  let start_time := time_time E (world s) in
  let '(post_urls, s1) := fetch_post_urls self max_posts sort_type keywords s in
  match post_urls with
  | [] => (Returned error_result, self, s1)
  | _ :: _ =>
      match _filter_existing_posts post_urls default_batch_size (world s1) with
      | Raised e => (Raised e, self, s1)
      | Returned [] => (Returned all_scraped_result, self, s1)
      | Returned ((_ :: _) as new_urls) =>
          let '(count, s2) :=
            fetch_details max_posts progress_callback (len new_urls) 1 new_urls
              (scraped_count self) s1 in
          let elapsed_time := time_time E (world s2) - start_time in
          let w3 := export_to_markdown E (target_name self) (world s2) in
          (Returned (success_result count (get_posts_count E w3) elapsed_time),
           with_count self count, mkSys w3 (trace s2))
      end
  end.

(** [__init__]: parse the target, then announce it and build the
    collaborators. *)
Definition __init__ (target : string) (s : Sys E) : Outcome t * Sys E :=
  match parse_target target with
  | Raised e => (Raised e, s)
  | Returned self =>
      match construct_components E (world s) with
      | (Some e, w) => (Raised e, mkSys w (trace s))
      | (None, w) => (Returned self, mkSys w (trace s))
      end
  end.

(** The module-level [scrape_reddit]. *)
Definition scrape_reddit (target : string) (max_posts : Z) (sort_type : string)
    (keywords : option (list string)) (progress_callback : option (Callback E))
    (s : Sys E) : Outcome (gmap string Value) * Sys E :=
  match __init__ target s with
  | (Raised e, s0) => (Raised e, s0)
  | (Returned scraper, s0) =>
      let '(r, _, s') :=
        scrape scraper max_posts sort_type keywords progress_callback s0 in
      (r, s')
  end.

(** [result['status']] *)
Definition status (r : Outcome (gmap string Value)) : option Value :=
  match r with
  | Returned d => d !! "status"
  | Raised _ => None
  end.

End WithCollab.
End RedditScraper.

(** ** The contract of the absent paginated strategy, and a test double *)

(** Modelled from the spec: [strategies/paginated.py] is not among the
    sources.  Its contract is the common one of every strategy: with
    [quota > 0], "the strategy must stop issuing further requests once it
    has produced [quota] candidates, even mid-page", so one call never
    returns more candidates than the [max_posts] it was given. *)
Definition paginated_respects_quota (E : Collab) : Prop :=
  ∀ (c : PagCall) (w : World E),
    0 < pc_max_posts c → len (paginated_fetch_posts E c w).1 ≤ pc_max_posts c.

(** The dedup state the loops maintain: [ids] is exactly the set of ids of
    [acc], and no id occurs twice in [acc]. *)
Definition dedup_inv (acc : list Cand) (ids : gset string) : Prop :=
  NoDup acc.*2 ∧ ∀ id : string, id ∈ ids ↔ id ∈ acc.*2.

(** A single pass over the list with one existence check per candidate. *)
Fixpoint filter_single_pass (E : Collab) (post_urls : list Cand) (w : World E)
  : list Cand :=
  match post_urls with
  | [] => []
  | (post_url, post_id) :: rest =>
      if check_post_exists E post_id w then filter_single_pass E rest w
      else (post_url, post_id) :: filter_single_pass E rest w
  end.

(** A target the parser has a rule for: it mentions [reddit.com] or starts
    with one of the shorthands. *)
Definition has_rule (target : string) : bool :=
  PyStr.contains "reddit.com" target
  || PyStr.startswith "u/" target || PyStr.startswith "user/" target
  || PyStr.startswith "r/" target.

(** Modelled from the spec: the source has no test of what a valid bare
    name is.  A name as the platform accepts one is not empty and made of
    letters, digits, [_] and [-] only; a target "can be normalized" when the
    parser has a rule for it or it is such a name. *)
Definition name_char (a : ascii) : bool :=
  let n := nat_of_ascii a in
  ((48 <=? n) && (n <=? 57) || (65 <=? n) && (n <=? 90)
   || (97 <=? n) && (n <=? 122) || (n =? 95) || (n =? 45))%nat.

Definition valid_bare_name (target : string) : bool :=
  negb (String.eqb target "") && forallb name_char (list_ascii_of_string target).

Definition normalizable (target : string) : bool :=
  has_rule target || valid_bare_name target.

(** A scripted world: the pages the listing will serve, the responses the
    search endpoint will give, the ids the post store holds, the advice of
    the rate controller, and a clock. *)
Module Script.

Record world : Type := mk {
  pages : list (list Cand);
  responses : list HttpOutcome;
  stored : list string;
  skip : bool;
  clock : Z
}.

Definition next_page (quota : Z) (w : world) : list Cand * world :=
  match pages w with
  | [] => ([], w)
  | page :: rest =>
      (take (Z.to_nat quota) page,
       {| pages := rest; responses := responses w; stored := stored w;
          skip := skip w; clock := clock w |})
  end.

Definition next_response (w : world) : HttpOutcome * world :=
  match responses w with
  | [] => (HttpRaised, w)
  | r :: rest =>
      (r, {| pages := pages w; responses := rest; stored := stored w;
             skip := skip w; clock := clock w |})
  end.

Definition tick (d : Z) (w : world) : world :=
  {| pages := pages w; responses := responses w; stored := stored w;
     skip := skip w; clock := clock w + d |}.

Definition env : Collab :=
  {| World := world;
     Callback := unit;
     run_callback := λ _ _ _ _ w, w;
     paginated_fetch_posts := λ c w, next_page (pc_max_posts c) w;
     fetch_user_posts := λ _ quota w, next_page quota w;
     should_skip_strategy := skip;
     get_delay := λ w, (1, w);
     record_success := λ w, w;
     record_other_error := λ w, w;
     handle_rate_limit := λ w, w;
     time_sleep := tick;
     time_time := clock;
     session_get := λ _ _ w, next_response w;
     check_post_exists := λ post_id w, bool_decide (post_id ∈ stored w);
     save_post := λ _ w, (true, w);
     get_posts_count := λ w, len (stored w);
     scrape_post := λ url w, (Some (mkPostData url "author" 1 0), w);
     export_to_markdown := λ _ w, w;
     construct_components := λ w, (None, w) |}.

Definition start (pages : list (list Cand)) (responses : list HttpOutcome)
    (stored : list string) : Sys env :=
  mkSys (E := env) (mk pages responses stored false 0) [].

Definition child (post_id : string) : Child :=
  Some (post_id, Some ("/r/python/comments/" +:+ post_id +:+ "/")).

Definition cand (post_id : string) : Cand :=
  ("https://www.reddit.com/r/python/comments/" +:+ post_id +:+ "/", post_id).

End Script.

(** ** reddit_system.py *)

#[global] Instance Value_eq_dec : EqDecision Value.
Proof. solve_decision. Defined.

(** [str(e)] *)
Definition exn_str (e : PyExn) : string :=
  match e with
  | ValueError msg => msg
  | IndexError msg => msg
  | KeyError key => "'" +:+ key +:+ "'"
  | NameError msg => msg
  | OtherError msg => msg
  end.

Definition is_search_event (ev : Event) : bool :=
  match ev with
  | EvSearch _ _ _ | EvHttpGet _ _ => true
  | _ => false
  end.

Definition is_time_range_call (ev : Event) : bool :=
  match ev with
  | EvTimeRange _ _ _ _ => true
  | _ => false
  end.

Module RedditSystem.

(** A stored post and a dataset row are both [dict]s. *)
Abbreviation Row := (gmap string Value).

Definition _passes_quality_filter (post : Row) (filter_type : string) : bool :=
  let recommendation := post !! "quality_recommendation" in
  if String.eqb filter_type "all" then true
  else if String.eqb filter_type "high_quality" then
    bool_decide (recommendation = Some (VStr "high_quality"))
  else if String.eqb filter_type "medium_plus" then
    bool_decide (recommendation
                 ∈ [Some (VStr "high_quality"); Some (VStr "medium_quality")])
  else if String.eqb filter_type "exclude_low" then
    bool_decide (recommendation ≠ Some (VStr "exclude"))
  else true.

(** [strategy = 'auto'] is resolved by the target count. *)
Definition resolve_strategy (strategy : string) (target_count : Z) : string :=
  if String.eqb strategy "auto" then
    if 2000 <? target_count then "super_full" else "new"
  else strategy.

Definition scrape_error (message : Value) : Row :=
  <["status" := VStr "error"]> (<["message" := message]> ∅).

Definition scrape_success (posts_scraped : Value) : Row :=
  <["status" := VStr "success"]>
    (<["message" := VStr "Scraping completed successfully"]>
       (<["posts_scraped" := posts_scraped]> ∅)).

Definition scraping_failed (e : PyExn) : Row :=
  scrape_error (VStr ("Scraping failed: " +:+ exn_str e)).

(** Importing [scraper.py] runs the body of [RedditScraper], whose method
    [_filter_existing_posts] is annotated with [Tuple], a name the module
    never imports: where annotations are evaluated when the [def] runs
    (Python before 3.14) the import raises [NameError]. *)
Definition import_scraper (annotations_at_definition : bool) : option PyExn :=
  if annotations_at_definition
  then Some (NameError "name 'Tuple' is not defined")
  else None.

(** [scrape_posts]: the whole body sits in [try ... except Exception].
    [imported] is what [from scraper import scrape_reddit] does, [Some e]
    when it raises [e]. *)
Definition scrape_posts (E : Collab) (imported : option PyExn) (target : string)
    (target_count : Z) (strategy : string) (save_json : bool) (s : Sys E)
  : Row * Sys E :=
  match imported with
  | Some e => (scraping_failed e, s)
  | None =>
      let strategy := resolve_strategy strategy target_count in
      let '(result, s') :=
        RedditScraper.scrape_reddit E target target_count strategy None None s in
      match result with
      | Raised e => (scraping_failed e, s')
      | Returned d =>
          match d !! "status" with
          | None => (scraping_failed (KeyError "status"), s')
          | Some st =>
              if bool_decide (st = VStr "success") then
                match d !! "scraped_count" with
                | Some n => (scrape_success n, s')
                | None => (scraping_failed (KeyError "scraped_count"), s')
                end
              else
                (scrape_error (default (VStr "Unknown error") (d !! "message")),
                 s')
          end
      end
  end.

(** What [export_professional_csv] relies on and the sources do not hold:
    the standardizer, the formatting of dates, the CSV file and the summary
    writer.  [None] from [create_dataset_ready_row] or [strftime] is a call
    that raises; [Some e] from [csv_open] is an [open] that raises [e];
    [Some e] from [row_write_fails] is a row on which the CSV writer
    raises [e]. *)
Record Helpers (Summary : Type) : Type := mkHelpers {
  strftime : Value → option string;
  create_dataset_ready_row : Row → option Row;
  now_stamp : string;
  csv_open : string → option PyExn;
  row_write_fails : Row → option PyExn;
  generate_summary : string → Z → Z → string → Outcome Summary
}.
Arguments strftime {Summary} h.
Arguments create_dataset_ready_row {Summary} h.
Arguments now_stamp {Summary} h.
Arguments csv_open {Summary} h.
Arguments row_write_fails {Summary} h.
Arguments generate_summary {Summary} h.

(** [if timestamp] *)
Definition timestamp_truthy (timestamp : option Value) : bool :=
  match timestamp with
  | None => false
  | Some (VStr s) => negb (String.eqb s "")
  | Some (VInt n) => negb (n =? 0)
  | Some (VTime t) => negb (t =? 0)
  end.

Definition _convert_timestamp {Summary : Type} (H : Helpers Summary)
    (timestamp : option Value) : string :=
  match timestamp with
  | Some v =>
      if timestamp_truthy timestamp then
        match strftime H v with
        | Some date => date
        | None => ""
        end
      else ""
  | None => ""
  end.

(** The loop variables of the export, the batches handed to
    [writer.writerows] so far, and the data rows that reached the file. *)
Record Writer : Type := mkWriter {
  batch_to_write : list Row;
  exported_count : Z;
  processed_count : Z;
  written : list (list Row);
  file_rows : list Row
}.

Definition batch_size : Z := 500.

(** [writer.writerows(rows)]: the rows go to the file one by one, up to
    the first on which the writer raises. *)
Fixpoint writerows {Summary : Type} (H : Helpers Summary) (rows : list Row)
  : list Row * option PyExn :=
  match rows with
  | [] => ([], None)
  | row :: rest =>
      match row_write_fails H row with
      | Some e => ([], Some e)
      | None =>
          let '(reached, failure) := writerows H rest in
          (row :: reached, failure)
      end
  end.

(** [writer.writerows(batch_to_write); exported_count += len(batch_to_write);
     batch_to_write.clear()]: when [writerows] raises, the count and the
    batch stay as they are. *)
Definition write_batch {Summary : Type} (H : Helpers Summary) (st : Writer)
  : Writer * option PyExn :=
  let '(reached, failure) := writerows H (batch_to_write st) in
  match failure with
  | Some e =>
      ({| batch_to_write := batch_to_write st;
          exported_count := exported_count st;
          processed_count := processed_count st;
          written := written st ++ [batch_to_write st];
          file_rows := file_rows st ++ reached |}, Some e)
  | None =>
      ({| batch_to_write := [];
          exported_count := exported_count st + len (batch_to_write st);
          processed_count := processed_count st;
          written := written st ++ [batch_to_write st];
          file_rows := file_rows st ++ reached |}, None)
  end.

(** The body of [for post_data in self.db.get_all_posts_iterator()]; an
    exception of the standardizer or of the batch write is swallowed by the
    [except] of the loop body. *)
Definition export_post {Summary : Type} (H : Helpers Summary)
    (quality_filter : string) (st : Writer) (post_data : Row) : Writer :=
  let post_data :=
    <["created_date" := VStr (_convert_timestamp H (post_data !! "created_utc"))]>
      post_data in
  match create_dataset_ready_row H post_data with
  | None => st
  | Some standardized_post =>
      let st1 :=
        if _passes_quality_filter standardized_post quality_filter then
          {| batch_to_write := batch_to_write st ++ [standardized_post];
             exported_count := exported_count st;
             processed_count := processed_count st + 1;
             written := written st;
             file_rows := file_rows st |}
        else st in
      if batch_size <=? len (batch_to_write st1) then (write_batch H st1).1
      else st1
  end.

(** The loop and the write of what remains; an exception of that last
    write is not caught by the loop body. *)
Definition export_loop {Summary : Type} (H : Helpers Summary)
    (quality_filter : string) (posts : list Row) : Writer * option PyExn :=
  let st := foldl (export_post H quality_filter) (mkWriter [] 0 0 [] []) posts in
  match batch_to_write st with
  | [] => (st, None)
  | _ :: _ => write_batch H st
  end.

Inductive ExportResult (Summary : Type) : Type :=
| ExportError (message : string)
| ExportSuccess (output_file : string) (total_posts processed_posts : Z)
                (summary : Summary).
Arguments ExportError {Summary} message.
Arguments ExportSuccess {Summary} output_file total_posts processed_posts summary.

(** [output_file] when none is given. *)
Definition export_file {Summary : Type} (H : Helpers Summary)
    (output_file : option string) : string :=
  match output_file with
  | None | Some "" => "uoft_reddit_dataset_" +:+ now_stamp H +:+ ".csv"
  | Some f => f
  end.

(** [export_professional_csv]; beside the result, the writer as the call
    leaves it (the batches handed over, the rows in the file). *)
Definition export_professional_csv {Summary : Type} (H : Helpers Summary)
    (posts : list Row) (output_file : option string) (quality_filter : string)
  : ExportResult Summary * Writer :=
  let output_file := export_file H output_file in
  match csv_open H output_file with
  | Some e =>
      (ExportError ("Export failed: " +:+ exn_str e), mkWriter [] 0 0 [] [])
  | None =>
      let '(st, failure) := export_loop H quality_filter posts in
      match failure with
      | Some e => (ExportError ("Export failed: " +:+ exn_str e), st)
      | None =>
          if exported_count st =? 0 then
            (ExportError "No posts found matching criteria", st)
          else
            match generate_summary H output_file (exported_count st)
                    (processed_count st) quality_filter with
            | Raised e => (ExportError ("Export failed: " +:+ exn_str e), st)
            | Returned summary =>
                (ExportSuccess output_file (exported_count st)
                   (processed_count st) summary, st)
            end
      end
  end.

(** The rows a post contributes to the dataset: its standardized row when
    the standardizer returns one that passes the filter. *)
Definition dataset_row {Summary : Type} (H : Helpers Summary)
    (quality_filter : string) (post_data : Row) : list Row :=
  let post_data :=
    <["created_date" := VStr (_convert_timestamp H (post_data !! "created_utc"))]>
      post_data in
  match create_dataset_ready_row H post_data with
  | Some row => if _passes_quality_filter row quality_filter then [row] else []
  | None => []
  end.

(** What [analyze_data_quality] relies on: the standardizer, with the
    message of its exception when it raises ([inl]), and whether
    [sum(quality_scores) / len(quality_scores)] raises, with the message. *)
Record Analysis : Type := mkAnalysis {
  standardize : Row → string + Row;
  average_fails : list Value → option string
}.

(** The loop variables of [analyze_data_quality]. *)
Record Sample : Type := mkSample {
  count : Z;
  quality_scores : list Value;
  content_types : gmap string Z
}.

Definition initial_sample : Sample :=
  {| count := 0; quality_scores := [];
     content_types := <["text" := 0]> (<["link" := 0]> (<["empty" := 0]> ∅)) |}.

(** [if content_type in content_types: content_types[content_type] += 1] *)
Definition count_content_type (content_type : Value) (types : gmap string Z)
  : gmap string Z :=
  match content_type with
  | VStr k =>
      match types !! k with
      | Some n => <[k := n + 1]> types
      | None => types
      end
  | _ => types
  end.

(** [for post_data in self.db.get_all_posts_iterator(): if count >= 100: break ...];
    [inl] when the standardizer raises. *)
Fixpoint sample (A : Analysis) (posts : list Row) (st : Sample) : string + Sample :=
  match posts with
  | [] => inr st
  | post_data :: rest =>
      if 100 <=? count st then inr st
      else
        match standardize A post_data with
        | inl msg => inl msg
        | inr standardized =>
            sample A rest
              {| count := count st + 1;
                 quality_scores :=
                   quality_scores st
                   ++ [default (VInt 0) (standardized !! "quality_overall")];
                 content_types :=
                   count_content_type
                     (default (VStr "unknown") (standardized !! "content_type"))
                     (content_types st) |}
        end
  end.

Definition analysis_failed (msg : string) : Row :=
  scrape_error (VStr ("Analysis failed: " +:+ msg)).

(** [analyze_data_quality]: the whole body sits in [try ... except Exception].
    The result [dict] is built with ['sample_size': len(result.data)], and
    no name [result] is bound in the method or the module. *)
Definition analyze_data_quality (A : Analysis) (posts : list Row) : Row :=
  match sample A posts initial_sample with
  | inl msg => analysis_failed msg
  | inr st =>
      if count st =? 0 then scrape_error (VStr "No data found")
      else
        match
          match quality_scores st with
          | [] => None
          | _ :: _ => average_fails A (quality_scores st)
          end
        with
        | Some msg => analysis_failed msg
        | None => analysis_failed "name 'result' is not defined"
        end
  end.

End RedditSystem.

(** What a call made after strategy 1 of the coordinator may be, [deficit]
    being what strategy 1 left open. *)
Definition fallback_event (subreddit : string) (sort_type : string)
    (keywords : option (list string)) (deficit : Z) (ev : Event) : Prop :=
  match ev with
  | EvPaginated _ => sort_type ≠ "top"
  | EvTimeRange t q r u =>
      sort_type ≠ "top" ∧ t = subreddit ∧ q = deficit ∧ 0 < q
      ∧ r = Some ["week"; "month"; "year"] ∧ u = false
  | EvSearch t q k =>
      SubredditScraper.truthy keywords = true ∧ t = subreddit
      ∧ 0 < q ≤ deficit ∧ k = keywords
  | EvHttpGet _ _ => SubredditScraper.truthy keywords = true
  | EvUserFetch _ _ | EvScrapePost _ => False
  end.

(** What the export loop keeps true while no write fails, [rows] being the
    dataset rows of the posts seen so far: the pending batch is short of a
    full one, the rows written and pending are [rows] in order, the file
    holds the rows written, the counters count them, and every batch
    written so far is a full one. *)
Definition writer_inv (rows : list RedditSystem.Row) (st : RedditSystem.Writer)
  : Prop :=
  len (RedditSystem.batch_to_write st) < RedditSystem.batch_size
  ∧ RedditSystem.exported_count st = len (concat (RedditSystem.written st))
  ∧ RedditSystem.processed_count st
    = RedditSystem.exported_count st + len (RedditSystem.batch_to_write st)
  ∧ concat (RedditSystem.written st) ++ RedditSystem.batch_to_write st = rows
  ∧ RedditSystem.file_rows st = concat (RedditSystem.written st)
  ∧ Forall (λ b, len b = RedditSystem.batch_size) (RedditSystem.written st).

(** Scripted helpers for the export: the standardizer refuses posts
    without an ['id'] and hands the others back as they are; the CSV
    writer raises on the rows [unwritable] picks out. *)
Definition script_helpers_with (unwritable : RedditSystem.Row → bool)
  : RedditSystem.Helpers unit :=
  {| RedditSystem.strftime := λ _, Some "2024-01-01 00:00:00";
     RedditSystem.create_dataset_ready_row :=
       λ post, match post !! "id" with Some _ => Some post | None => None end;
     RedditSystem.now_stamp := "20240101_000000";
     RedditSystem.csv_open := λ _, None;
     RedditSystem.row_write_fails :=
       λ row, if unwritable row
              then Some (OtherError "'utf-8' codec can't encode character")
              else None;
     RedditSystem.generate_summary := λ _ _ _ _, Returned tt |}.

Definition script_helpers : RedditSystem.Helpers unit :=
  script_helpers_with (λ _, false).

(** * Properties *)

(** ** The dedup loops *)

Lemma len_nil {A : Type} : len (@nil A) = 0.
Proof. reflexivity. Qed.

Lemma len_app {A : Type} (l k : list A) : len (l ++ k) = len l + len k.
Proof. unfold len. rewrite length_app. lia. Qed.

Lemma len_nonneg {A : Type} (l : list A) : 0 ≤ len l.
Proof. unfold len. lia. Qed.

Lemma dedup_inv_nil : dedup_inv [] ∅.
Proof. split; [constructor | set_solver]. Qed.

Lemma dedup_inv_snoc (acc : list Cand) (ids : gset string) (u id : string) :
  dedup_inv acc ids → id ∉ ids → dedup_inv (acc ++ [(u, id)]) ({[id]} ∪ ids).
Proof.
  intros [Hnd Hids] Hfresh. split.
  - rewrite fmap_app. apply NoDup_app. split; [done|]. split.
    + intros x Hx Hx'. apply list_elem_of_singleton in Hx'. simpl in Hx'.
      subst x. apply Hfresh, Hids, Hx.
    + apply NoDup_singleton.
  - intros x. rewrite fmap_app, elem_of_app, elem_of_union, elem_of_singleton.
    simpl. rewrite list_elem_of_singleton, Hids. tauto.
Qed.

(** [merge_new] keeps the dedup state, only appends, and appends at most
    the batch. *)
Lemma merge_new_spec (batch : list Cand) :
  ∀ (acc : list Cand) (ids : gset string),
    dedup_inv acc ids →
    dedup_inv (merge_new batch acc ids).1 (merge_new batch acc ids).2
    ∧ acc `prefix_of` (merge_new batch acc ids).1
    ∧ len (merge_new batch acc ids).1 ≤ len acc + len batch.
Proof.
  induction batch as [|[u id] rest IH]; intros acc ids Hinv; simpl.
  - split; [done|]. split; [done|]. unfold len; simpl; lia.
  - case_decide as Hin.
    + destruct (IH acc ids Hinv) as (H1 & H2 & H3).
      split; [done|]. split; [done|]. unfold len in *; simpl; lia.
    + destruct (IH _ _ (dedup_inv_snoc acc ids u id Hinv Hin)) as (H1 & H2 & H3).
      split; [done|]. split.
      * etrans; [|exact H2]. by apply prefix_app_r.
      * rewrite len_app in H3. unfold len in *; simpl in *; lia.
Qed.

(** Starting from a non-empty list only shifts the result. *)
Lemma merge_new_shift (batch : list Cand) :
  ∀ (acc : list Cand) (ids : gset string),
    merge_new batch acc ids
    = (acc ++ (merge_new batch [] ids).1, (merge_new batch [] ids).2).
Proof.
  induction batch as [|[u id] rest IH]; intros acc ids; simpl.
  - by rewrite app_nil_r.
  - case_decide; [apply IH|].
    rewrite (IH (acc ++ [(u, id)])), (IH [(u, id)]). simpl.
    by rewrite <- app_assoc.
Qed.

(** A batch of fresh, pairwise distinct ids is appended whole. *)
Lemma merge_new_fresh (batch : list Cand) :
  ∀ (acc : list Cand) (ids : gset string),
    dedup_inv acc ids → NoDup (acc ++ batch).*2 →
    (merge_new batch acc ids).1 = acc ++ batch.
Proof.
  induction batch as [|[u id] rest IH]; intros acc ids Hinv Hnd; simpl.
  - by rewrite app_nil_r.
  - assert (id ∉ ids) as Hfresh.
    { intros Hin. apply Hinv in Hin.
      rewrite fmap_app in Hnd. apply NoDup_app in Hnd as (_ & Hdisj & _).
      apply (Hdisj id Hin). simpl. left. }
    case_decide; [done|].
    rewrite IH.
    + by rewrite <- app_assoc.
    + by apply dedup_inv_snoc.
    + by rewrite <- app_assoc.
Qed.

(** [merge_until] keeps the dedup state, only appends, and never passes
    [max_posts] when it starts below it. *)
Lemma merge_until_spec (max_posts : Z) (posts : list Cand) :
  ∀ (acc : list Cand) (ids : gset string),
    dedup_inv acc ids → len acc < max_posts →
    dedup_inv (SubredditScraper.merge_until max_posts posts acc ids).1
              (SubredditScraper.merge_until max_posts posts acc ids).2
    ∧ acc `prefix_of` (SubredditScraper.merge_until max_posts posts acc ids).1
    ∧ len (SubredditScraper.merge_until max_posts posts acc ids).1 ≤ max_posts.
Proof.
  induction posts as [|[u id] rest IH]; intros acc ids Hinv Hlen; simpl.
  - split; [done|]. split; [done|]. lia.
  - case_decide as Hin; [by apply IH|].
    pose proof (dedup_inv_snoc acc ids u id Hinv Hin) as Hinv'.
    destruct (max_posts <=? len (acc ++ [(u, id)])) eqn:Hfull; simpl.
    + split; [done|]. split; [by apply prefix_app_r|].
      rewrite len_app. unfold len in *. simpl in *. lia.
    + apply Z.leb_gt in Hfull.
      destruct (IH _ _ Hinv' ltac:(lia)) as (H1 & H2 & H3).
      split; [done|]. split; [|done].
      etrans; [|exact H2]. by apply prefix_app_r.
Qed.

(** ** The coordinator *)

(** What the coordinator holds after strategy 1. *)
Lemma primary_merge (primary_posts : list Cand) :
  dedup_inv (merge_new primary_posts [] ∅).1 (merge_new primary_posts [] ∅).2
  ∧ len (merge_new primary_posts [] ∅).1 ≤ len primary_posts.
Proof.
  destruct (merge_new_spec primary_posts [] ∅ dedup_inv_nil) as (H1 & _ & H3).
  split; [done|]. by rewrite len_nil in H3.
Qed.

(** C1. For every coordinator run with a quota [max_posts > 0], any sort
    type and any keyword list, the list [fetch_subreddit_posts] returns
    holds no id twice and never more than [max_posts] entries, the
    paginated strategy keeping to the quota it is given. *)
Theorem C1_coordinator_dedup_and_quota (E : Collab) (subreddit : string)
    (max_posts : Z) (sort_type : string) (keywords : option (list string))
    (s : Sys E) :
  paginated_respects_quota E →
  0 < max_posts →
  NoDup (SubredditScraper.fetch_subreddit_posts E subreddit max_posts
           sort_type keywords s).1.*2
  ∧ len (SubredditScraper.fetch_subreddit_posts E subreddit max_posts
           sort_type keywords s).1 ≤ max_posts.
Proof.
  intros Hquota Hpos. unfold SubredditScraper.fetch_subreddit_posts.
  pose proof (Hquota (SubredditScraper.primary_call subreddit max_posts sort_type)
                (world s) Hpos) as Hprim.
  destruct (paginated_fetch_posts E _ (world s)) as [primary_posts w1].
  simpl in Hprim.
  destruct (primary_merge primary_posts) as [Hinv1 Hlen1].
  destruct (merge_new primary_posts [] ∅) as [all1 ids1]. simpl in Hinv1, Hlen1.
  destruct (len all1 <? max_posts) eqn:Hdeficit; simpl.
  2: { split; [apply Hinv1 | lia]. }
  apply Z.ltb_lt in Hdeficit.
  (* strategy 2 *)
  set (st2 := if negb (String.eqb sort_type "top") then _ else _).
  assert (dedup_inv st2.1.1 st2.1.2 ∧ len st2.1.1 ≤ max_posts) as [Hinv2 Hlen2].
  { subst st2. destruct (negb (String.eqb sort_type "top")).
    - destruct (TimeRangeStrategy.fetch_posts E _ _ _ _ _) as [posts s']. simpl.
      destruct (merge_until_spec max_posts posts all1 ids1 Hinv1 Hdeficit)
        as (H1 & _ & H3).
      by destruct (SubredditScraper.merge_until max_posts posts all1 ids1).
    - simpl. split; [done | lia]. }
  destruct st2 as [[all2 ids2] s2]. simpl in Hinv2, Hlen2.
  (* strategy 3 *)
  destruct (SubredditScraper.truthy keywords && (len all2 <? max_posts)) eqn:Hk.
  2: { simpl. split; [apply Hinv2 | done]. }
  apply andb_prop in Hk as [_ Hdef2]. apply Z.ltb_lt in Hdef2.
  destruct (SearchStrategy.fetch_posts E _ _ _ _) as [posts s3]. simpl.
  destruct (merge_until_spec max_posts posts all2 ids2 Hinv2 Hdef2)
    as (H1 & _ & H3).
  split; [apply H1 | done].
Qed.

(** The scripted listing keeps to the quota it is given. *)
Lemma script_respects_quota : paginated_respects_quota Script.env.
Proof.
  intros c w Hpos. simpl. unfold Script.next_page.
  destruct (Script.pages w) as [|page rest]; simpl.
  - unfold len; simpl; lia.
  - unfold len. rewrite length_take. lia.
Qed.

Lemma C1_coordinator_dedup_and_quota_witness :
  paginated_respects_quota Script.env ∧ 0 < 3 ∧
  let run :=
    SubredditScraper.fetch_subreddit_posts Script.env "python" 3 "hot"
      (Some ["rust"])
      (Script.start
         [[Script.cand "a"; Script.cand "a"]; [Script.cand "a"; Script.cand "b"]]
         [HttpResponse 200 (Some [Script.child "c"; Script.child "d"])] []) in
  NoDup run.1.*2 ∧ len run.1 ≤ 3.
Proof.
  split; [apply script_respects_quota|]. split; [lia|].
  apply C1_coordinator_dedup_and_quota; [apply script_respects_quota | lia].
Defined.

(** C6. When the primary paginated strategy alone yields [max_posts]
    candidates with pairwise distinct ids, the coordinator returns exactly
    those candidates in the order the primary strategy gave them, and the
    only call of the run is the primary one: neither
    [TimeRangeStrategy.fetch_posts] nor [SearchStrategy.fetch_posts] is
    invoked. *)
Theorem C6_primary_meets_quota (E : Collab) (subreddit : string)
    (max_posts : Z) (sort_type : string) (keywords : option (list string))
    (s : Sys E) :
  let c := SubredditScraper.primary_call subreddit max_posts sort_type in
  let primary_posts := (paginated_fetch_posts E c (world s)).1 in
  let run :=
    SubredditScraper.fetch_subreddit_posts E subreddit max_posts sort_type
      keywords s in
  NoDup primary_posts.*2 →
  len primary_posts = max_posts →
  run.1 = primary_posts
  ∧ trace run.2 = trace s ++ [EvPaginated c]
  ∧ world run.2 = (paginated_fetch_posts E c (world s)).2
  ∧ filter (λ ev, is_strategy_call ev = true) (drop (length (trace s)) (trace run.2))
    = [].
Proof.
  intros c primary_posts run Hnd Hlen. subst run primary_posts.
  unfold SubredditScraper.fetch_subreddit_posts. fold c.
  destruct (paginated_fetch_posts E c (world s)) as [primary_posts w1].
  simpl in Hnd, Hlen.
  pose proof (merge_new_fresh primary_posts [] ∅ dedup_inv_nil Hnd) as Hall.
  destruct (merge_new primary_posts [] ∅) as [all1 ids1]. simpl in Hall.
  subst all1. rewrite Hlen, Z.ltb_irrefl. simpl.
  repeat split; [].
  rewrite drop_app_length. reflexivity.
Qed.

Lemma C6_primary_meets_quota_witness :
  let s :=
    Script.start [[Script.cand "a"; Script.cand "b"]; [Script.cand "c"]]
      [HttpResponse 200 (Some [Script.child "d"])] [] in
  let run :=
    SubredditScraper.fetch_subreddit_posts Script.env "python" 2 "hot"
      (Some ["rust"]) s in
  run.1 = [Script.cand "a"; Script.cand "b"]
  ∧ trace run.2
    = [EvPaginated (SubredditScraper.primary_call "python" 2 "hot")].
Proof.
  intros s run.
  assert (NoDup [Script.cand "a"; Script.cand "b"].*2) as Hnd
    by compute_done.
  destruct (C6_primary_meets_quota Script.env "python" 2 "hot" (Some ["rust"])
              s Hnd eq_refl) as (H1 & H2 & _).
  split; [exact H1 | exact H2].
Defined.

(** ** The time-range strategy *)

Section TimeRange.
Context (E : Collab) (target : string) (max_posts : Z) (is_user_mode : bool).

Local Abbreviation windows := (TimeRangeStrategy.windows E target max_posts is_user_mode).
Local Abbreviation window := (TimeRangeStrategy.window E target max_posts is_user_mode).
Local Abbreviation window_call :=
  (TimeRangeStrategy.window_call target max_posts is_user_mode).

(** Once the quota is reached the loop leaves at its first test. *)
Lemma windows_full (time_ranges : list string) (acc : TimeRangeStrategy.Acc)
    (s : Sys E) :
  max_posts ≤ len (TimeRangeStrategy.post_urls acc) →
  windows time_ranges acc s = (acc, s).
Proof.
  intros Hfull. destruct time_ranges as [|r rest]; simpl; [done|].
  by rewrite (proj2 (Z.leb_le _ _) Hfull).
Qed.

(** Running the loop over [done ++ rest] is running it over [done] and
    then over [rest]. *)
Lemma windows_app (done rest : list string) :
  ∀ (acc : TimeRangeStrategy.Acc) (s : Sys E),
    windows (done ++ rest) acc s
    = windows rest (windows done acc s).1 (windows done acc s).2.
Proof.
  induction done as [|r done' IH]; intros acc s; simpl; [done|].
  destruct (max_posts <=? len (TimeRangeStrategy.post_urls acc)) eqn:Hfull.
  - simpl. symmetry. apply windows_full. by apply Z.leb_le.
  - destruct (window r acc s) as [acc' s']. apply IH.
Qed.

(** One window: the call it makes, and what it leaves behind. *)
Lemma window_spec (time_range : string) (acc : TimeRangeStrategy.Acc)
    (s : Sys E) :
  paginated_respects_quota E →
  dedup_inv (TimeRangeStrategy.post_urls acc) (TimeRangeStrategy.collected_ids acc) →
  dedup_inv (TimeRangeStrategy.post_urls (window time_range acc s).1)
            (TimeRangeStrategy.collected_ids (window time_range acc s).1)
  ∧ len (TimeRangeStrategy.post_urls (window time_range acc s).1)
    ≤ len (TimeRangeStrategy.post_urls acc)
      + TimeRangeStrategy.window_quota max_posts acc
  ∧ trace (window time_range acc s).2
    = trace s ++ [EvPaginated (window_call time_range acc)].
Proof.
  intros Hquota Hinv. unfold TimeRangeStrategy.window.
  set (c := window_call time_range acc).
  assert (0 < pc_max_posts c) as Hpos.
  { subst c. simpl. unfold TimeRangeStrategy.window_quota. lia. }
  pose proof (Hquota c (world s) Hpos) as Hbatch.
  destruct (paginated_fetch_posts E c (world s)) as [batch_posts w].
  simpl in Hbatch.
  pose proof (merge_new_shift batch_posts (TimeRangeStrategy.post_urls acc)
                (TimeRangeStrategy.collected_ids acc)) as Hshift.
  destruct (merge_new_spec batch_posts _ _ Hinv) as (H1 & _ & H3).
  rewrite Hshift in H1, H3.
  destruct (merge_new batch_posts [] (TimeRangeStrategy.collected_ids acc))
    as [batch_new collected].
  simpl in *. split; [done|]. split; [lia | done].
Qed.

(** The loop invariant behind C2: the dedup state is kept, the list stays
    below [max_posts + 100], and every call asks for the deficit clamped
    into [100 .. 1000]. *)
Lemma windows_spec (time_ranges : list string) :
  paginated_respects_quota E →
  ∀ (acc : TimeRangeStrategy.Acc) (s : Sys E),
    dedup_inv (TimeRangeStrategy.post_urls acc) (TimeRangeStrategy.collected_ids acc) →
    len (TimeRangeStrategy.post_urls acc) < max_posts + 100 →
    dedup_inv (TimeRangeStrategy.post_urls (windows time_ranges acc s).1)
              (TimeRangeStrategy.collected_ids (windows time_ranges acc s).1)
    ∧ len (TimeRangeStrategy.post_urls (windows time_ranges acc s).1)
      < max_posts + 100
    ∧ ∃ calls : list PagCall,
        trace (windows time_ranges acc s).2 = trace s ++ (EvPaginated <$> calls)
        ∧ Forall (λ c, ∃ k, 0 ≤ k < max_posts
                            ∧ pc_max_posts c = Z.min (Z.max 100 (max_posts - k)) 1000)
                 calls.
Proof.
  intros Hquota. induction time_ranges as [|r rest IH]; intros acc s Hinv Hlen; simpl.
  - split; [done|]. split; [done|]. exists []. simpl. by rewrite app_nil_r.
  - destruct (max_posts <=? len (TimeRangeStrategy.post_urls acc)) eqn:Hfull; simpl.
    + split; [done|]. split; [done|]. exists []. simpl. by rewrite app_nil_r.
    + apply Z.leb_gt in Hfull.
      destruct (window_spec r acc s Hquota Hinv) as (W1 & W2 & W3).
      destruct (window r acc s) as [acc' s']. simpl in W1, W2, W3.
      assert (len (TimeRangeStrategy.post_urls acc') < max_posts + 100) as Hlen'.
      { unfold TimeRangeStrategy.window_quota in W2. lia. }
      destruct (IH acc' s' W1 Hlen') as (I1 & I2 & calls & I3 & I4).
      split; [done|]. split; [done|].
      exists (window_call r acc :: calls). split.
      * rewrite I3, W3, <- app_assoc. done.
      * constructor; [|done].
        exists (len (TimeRangeStrategy.post_urls acc)). split.
        -- pose proof (len_nonneg (TimeRangeStrategy.post_urls acc)). lia.
        -- reflexivity.
Qed.

End TimeRange.

(** C8. In a [TimeRangeStrategy.fetch_posts] loop, once the running total
    has reached [max_posts] after the windows [done], the windows [rest]
    that follow change nothing: the trace and the world stay as they were,
    so the per-window paginated strategy is not invoked again. *)
Theorem C8_no_window_after_quota (E : Collab) (target : string) (max_posts : Z)
    (is_user_mode : bool) (done rest : list string)
    (acc : TimeRangeStrategy.Acc) (s : Sys E) :
  let reached := TimeRangeStrategy.windows E target max_posts is_user_mode done acc s in
  max_posts ≤ len (TimeRangeStrategy.post_urls reached.1) →
  TimeRangeStrategy.windows E target max_posts is_user_mode (done ++ rest) acc s
  = reached.
Proof.
  intros reached Hfull. rewrite windows_app. fold reached.
  rewrite windows_full by done. by destruct reached.
Qed.

Lemma C8_no_window_after_quota_witness :
  let s := mkSys (E := Script.env)
             (Script.mk [[Script.cand "a"; Script.cand "b"]; [Script.cand "c"]] [] [] false 0)
             [] in
  let acc := TimeRangeStrategy.mkAcc [] ∅ in
  trace (TimeRangeStrategy.windows Script.env "python" 2 false
           (["week"] ++ ["month"; "year"]) acc s).2
  = [EvPaginated (mkPagCall "python" 100 "top" (Some "week") false)].
Proof.
  intros s acc.
  rewrite (C8_no_window_after_quota Script.env "python" 2 false
             ["week"] ["month"; "year"] acc s).
  - reflexivity.
  - vm_compute. discriminate.
Defined.

Lemma window_trace (E : Collab) (target : string) (max_posts : Z)
    (is_user_mode : bool) (time_range : string) (acc : TimeRangeStrategy.Acc)
    (s : Sys E) :
  trace (TimeRangeStrategy.window E target max_posts is_user_mode time_range
           acc s).2
  = trace s
    ++ [EvPaginated
          (TimeRangeStrategy.window_call target max_posts is_user_mode
             time_range acc)].
Proof.
  unfold TimeRangeStrategy.window.
  destruct (paginated_fetch_posts E _ (world s)) as [batch_posts w].
  by destruct (merge_new batch_posts [] (TimeRangeStrategy.collected_ids acc)).
Qed.

(** The calls of the loop, one by one: the [i]-th call is made for the
    [i]-th window, while the candidates collected over the windows before
    it are still short of [max_posts], and asks for that deficit clamped
    into [100 .. 1000]. *)
Lemma windows_calls_exact (E : Collab) (target : string) (max_posts : Z)
    (is_user_mode : bool) (time_ranges : list string) :
  ∀ (acc : TimeRangeStrategy.Acc) (s : Sys E),
    ∃ calls : list PagCall,
      trace (TimeRangeStrategy.windows E target max_posts is_user_mode
               time_ranges acc s).2
      = trace s ++ (EvPaginated <$> calls)
      ∧ ∀ (i : nat) (c : PagCall),
          calls !! i = Some c →
          let collected :=
            len (TimeRangeStrategy.post_urls
                   (TimeRangeStrategy.windows E target max_posts is_user_mode
                      (take i time_ranges) acc s).1) in
          collected < max_posts
          ∧ pc_max_posts c = Z.min (Z.max 100 (max_posts - collected)) 1000
          ∧ pc_time_filter c = time_ranges !! i.
Proof.
  induction time_ranges as [|r rest IH]; intros acc s.
  - exists []. simpl. rewrite app_nil_r. split; [done|]. by intros i c.
  - simpl.
    destruct (max_posts <=? len (TimeRangeStrategy.post_urls acc)) eqn:Hfull.
    { exists []. simpl. rewrite app_nil_r. split; [done|]. by intros i c. }
    pose proof (window_trace E target max_posts is_user_mode r acc s) as Wtrace.
    destruct (TimeRangeStrategy.window E target max_posts is_user_mode r acc s)
      as [acc' s'] eqn:Hwindow. simpl in Wtrace.
    destruct (IH acc' s') as (calls & Htrace & Hcalls).
    exists (TimeRangeStrategy.window_call target max_posts is_user_mode r acc
              :: calls).
    split; [rewrite Htrace, Wtrace, <- app_assoc; done|].
    intros [|i] c Hc; simpl in Hc.
    + injection Hc as <-. simpl. apply Z.leb_gt in Hfull.
      split; [done|]. split; [|done].
      unfold TimeRangeStrategy.window_quota. done.
    + specialize (Hcalls i c Hc). simpl. rewrite Hfull, Hwindow. exact Hcalls.
Qed.

(** C2, as the code has it. Each per-window paginated strategy is asked
    for [min(max(100, max_posts - collected), 1000)], where [collected] is
    the number of candidates gathered over the windows before it (still
    short of [max_posts]): the remaining deficit clamped into
    [100 .. 1000], so at least 100 even when the deficit is smaller. Each
    call keeping to its quota, the list [fetch_posts] returns holds no id
    twice and fewer than [max_posts + 100] candidates. *)
Theorem C2_window_quota_is_clamped_deficit (E : Collab) (target : string)
    (max_posts : Z) (time_ranges : option (list string)) (is_user_mode : bool)
    (s : Sys E) :
  paginated_respects_quota E →
  0 < max_posts →
  let ranges :=
    match time_ranges with
    | None | Some [] => TimeRangeStrategy.default_time_ranges
    | Some l => l
    end in
  let entered :=
    mkSys (world s)
      (trace s ++ [EvTimeRange target max_posts time_ranges is_user_mode]) in
  let collected (i : nat) :=
    len (TimeRangeStrategy.post_urls
           (TimeRangeStrategy.windows E target max_posts is_user_mode
              (take i ranges) (TimeRangeStrategy.mkAcc [] ∅) entered).1) in
  let run := TimeRangeStrategy.fetch_posts E target max_posts time_ranges
               is_user_mode s in
  (∃ calls : list PagCall,
      trace run.2
      = trace s ++ EvTimeRange target max_posts time_ranges is_user_mode
                   :: (EvPaginated <$> calls)
      ∧ ∀ (i : nat) (c : PagCall),
          calls !! i = Some c →
          collected i < max_posts
          ∧ pc_max_posts c = Z.min (Z.max 100 (max_posts - collected i)) 1000
          ∧ pc_time_filter c = ranges !! i)
  ∧ NoDup run.1.*2
  ∧ len run.1 < max_posts + 100.
Proof.
  intros Hquota Hpos ranges entered collected run.
  subst run collected. unfold TimeRangeStrategy.fetch_posts.
  fold ranges. fold entered.
  destruct (windows_spec E target max_posts is_user_mode ranges Hquota
              (TimeRangeStrategy.mkAcc [] ∅) entered dedup_inv_nil)
    as (H1 & H2 & _).
  { simpl. rewrite len_nil. lia. }
  destruct (windows_calls_exact E target max_posts is_user_mode ranges
              (TimeRangeStrategy.mkAcc [] ∅) entered) as (calls & Htrace & Hcalls).
  destruct (TimeRangeStrategy.windows E target max_posts is_user_mode ranges _
              entered) as [acc s'].
  simpl in H1, H2, Htrace. simpl fst. simpl snd.
  split.
  - exists calls. split; [|exact Hcalls].
    rewrite Htrace. subst entered. simpl. by rewrite <- app_assoc.
  - split; [apply H1 | done].
Qed.

Lemma C2_window_quota_is_clamped_deficit_witness :
  paginated_respects_quota Script.env ∧ 0 < 1 ∧
  let s := Script.start [[Script.cand "a"; Script.cand "b"]] [] [] in
  let ranges := ["week"; "month"] in
  let entered :=
    mkSys (E := Script.env) (world s)
      (trace s ++ [EvTimeRange "python" 1 (Some ranges) false]) in
  let collected (i : nat) :=
    len (TimeRangeStrategy.post_urls
           (TimeRangeStrategy.windows Script.env "python" 1 false
              (take i ranges) (TimeRangeStrategy.mkAcc [] ∅) entered).1) in
  let run := TimeRangeStrategy.fetch_posts Script.env "python" 1 (Some ranges)
               false s in
  (∃ calls : list PagCall,
      trace run.2
      = trace s ++ EvTimeRange "python" 1 (Some ranges) false
                   :: (EvPaginated <$> calls)
      ∧ ∀ (i : nat) (c : PagCall),
          calls !! i = Some c →
          collected i < 1
          ∧ pc_max_posts c = Z.min (Z.max 100 (1 - collected i)) 1000
          ∧ pc_time_filter c = ranges !! i)
  ∧ NoDup run.1.*2
  ∧ len run.1 < 1 + 100.
Proof.
  split; [apply script_respects_quota|]. split; [lia|].
  apply (C2_window_quota_is_clamped_deficit Script.env "python" 1
           (Some ["week"; "month"]) false
           (Script.start [[Script.cand "a"; Script.cand "b"]] [] [])
           script_respects_quota).
  lia.
Defined.

(** C2, as stated, fails: with [max_posts = 1] the only window is asked for
    100 candidates, not for the deficit of 1, and a listing that serves
    two posts (well within the 100 it was asked for) makes [fetch_posts]
    return 2 > 1 candidates. *)
Lemma C2_counterexample :
  let run :=
    TimeRangeStrategy.fetch_posts Script.env "python" 1 (Some ["week"]) false
      (Script.start [[Script.cand "a"; Script.cand "b"]] [] []) in
  trace run.2
  = [EvTimeRange "python" 1 (Some ["week"]) false;
     EvPaginated (mkPagCall "python" 100 "top" (Some "week") false)]
  ∧ ¬ (100 ≤ 1 - 0)
  ∧ run.1 = [Script.cand "a"; Script.cand "b"]
  ∧ ¬ (len run.1 ≤ 1).
Proof.
  cbv zeta. split; [reflexivity|]. split; [lia|]. split; [reflexivity|].
  vm_compute. intros H. apply H. reflexivity.
Qed.

(** ** The search strategy *)

(** C3, evaluated on the code. With [max_posts = 4] and two keywords the
    share of a keyword is [max(1, 4 // 2) = 2], yet the first keyword,
    whose page holds four posts, puts all four into the result:
    [posts_per_keyword] is computed and never consulted. *)
Theorem C3_first_keyword_takes_whole_quota :
  let keywords := ["a"; "b"] in
  let s :=
    Script.start []
      [HttpResponse 200
         (Some [Script.child "p1"; Script.child "p2"; Script.child "p3";
                Script.child "p4"]);
       HttpResponse 200 (Some [Script.child "p5"])] [] in
  SearchStrategy.posts_per_keyword 4 keywords = 2
  ∧ SearchStrategy.post_urls
      (SearchStrategy.search_keyword Script.env "python" 4 "a"
         (SearchStrategy.mkAcc [] ∅) s).1
    = [Script.cand "p1"; Script.cand "p2"; Script.cand "p3"; Script.cand "p4"]
  ∧ (SearchStrategy.fetch_posts Script.env "python" 4 (Some keywords) s).1
    = [Script.cand "p1"; Script.cand "p2"; Script.cand "p3"; Script.cand "p4"]
  ∧ filter (λ ev, is_request ev = true)
      (trace (SearchStrategy.fetch_posts Script.env "python" 4 (Some keywords) s).2)
    = [EvHttpGet "https://www.reddit.com/r/python/search.json" "a"].
Proof. cbv zeta. repeat split; vm_compute; reflexivity. Qed.

(** ** The target parser *)

Lemma split_fuel_nonempty (fuel : nat) (sep s : string) :
  ∃ x rest, PyStr.split_fuel fuel sep s = x :: rest.
Proof.
  destruct fuel as [|fuel']; simpl; [by eauto|].
  destruct (String.index 0 sep s); by eauto.
Qed.

Lemma first_split_returns (sep s : string) :
  ∃ x, PyStr.first (PyStr.split sep s) = Returned x.
Proof.
  unfold PyStr.split.
  destruct (split_fuel_nonempty (String.length s) sep s) as (x & rest & ->).
  by eauto.
Qed.

Lemma last_split_returns (sep s : string) :
  ∃ x, PyStr.last (PyStr.split sep s) = Returned x.
Proof.
  unfold PyStr.split, PyStr.last.
  destruct (split_fuel_nonempty (String.length s) sep s) as (x & rest & ->).
  destruct (List.rev (x :: rest)) as [|y l] eqn:Hrev; [|by eauto].
  apply (f_equal (@length string)) in Hrev.
  rewrite length_rev in Hrev. discriminate.
Qed.

Lemma name_after_returns (sep target : string) :
  ∃ x, RedditScraper.name_after sep target = Returned x.
Proof.
  unfold RedditScraper.name_after.
  destruct (PyStr.split sep target) as [|p0 [|p1 ps]]; [by eauto..|].
  apply first_split_returns.
Qed.

(** What the constructor gives once the target is parsed: the exception of
    its [print] or of a collaborator's construction, or the scraper. *)
Lemma init_by_parse (E : Collab) (target : string) (self : RedditScraper.t)
    (s : Sys E) :
  RedditScraper.parse_target target = Returned self →
  RedditScraper.__init__ E target s
  = match construct_components E (world s) with
    | (Some e, w) => (Raised e, mkSys w (trace s))
    | (None, w) => (Returned self, mkSys w (trace s))
    end.
Proof. intros Hparse. unfold RedditScraper.__init__. by rewrite Hparse. Qed.

Lemma parse_without_rule (target : string) :
  has_rule target = false →
  RedditScraper.parse_target target
  = Returned (RedditScraper.fresh false target).
Proof.
  unfold has_rule, RedditScraper.parse_target. intros Hrule.
  destruct (PyStr.contains "reddit.com" target); [done|].
  destruct (PyStr.startswith "u/" target); [done|].
  destruct (PyStr.startswith "user/" target); [done|].
  by destruct (PyStr.startswith "r/" target).
Qed.

(** C4, as the code has it. A target string that neither mentions
    [reddit.com] nor starts with [u/], [user/] or [r/] meets no validation:
    the parser takes it unchanged as the name of a subreddit, and the
    constructor then returns that scraper, unless its [print] or the
    construction of a collaborator raises, in which case that exception is
    what it raises. No request is issued either way. *)
Theorem C4_init_defaults_to_subreddit (E : Collab) (target : string)
    (s : Sys E) :
  has_rule target = false →
  RedditScraper.parse_target target
  = Returned (RedditScraper.fresh false target)
  ∧ RedditScraper.__init__ E target s
    = match construct_components E (world s) with
      | (Some e, w) => (Raised e, mkSys w (trace s))
      | (None, w) =>
          (Returned (RedditScraper.fresh false target), mkSys w (trace s))
      end.
Proof.
  intros Hrule. pose proof (parse_without_rule target Hrule) as Hparse.
  split; [exact Hparse|]. by apply init_by_parse.
Qed.

Lemma C4_init_defaults_to_subreddit_witness :
  has_rule "not a target!" = false
  ∧ RedditScraper.parse_target "not a target!"
    = Returned (RedditScraper.fresh false "not a target!")
  ∧ RedditScraper.__init__ Script.env "not a target!" (Script.start [] [] [])
    = (Returned (RedditScraper.fresh false "not a target!"),
       Script.start [] [] []).
Proof.
  split; [reflexivity|].
  apply (C4_init_defaults_to_subreddit Script.env "not a target!"
           (Script.start [] [] [])).
  reflexivity.
Defined.

(** C4, as stated, fails: ["not a target!"] is no URL, no shorthand and no
    valid bare name, and the constructor returns a subreddit scraper for
    it instead of raising. *)
Lemma C4_counterexample :
  normalizable "not a target!" = false
  ∧ (RedditScraper.__init__ Script.env "not a target!" (Script.start [] [] [])).1
    = Returned (RedditScraper.fresh false "not a target!")
  ∧ ¬ raises
        (RedditScraper.__init__ Script.env "not a target!"
           (Script.start [] [] [])).1.
Proof.
  split; [reflexivity|]. split; [reflexivity|].
  intros [e He]. vm_compute in He. discriminate He.
Qed.

Example init_url_user :
  RedditScraper.parse_target "https://www.reddit.com/user/spez/submitted/"
  = Returned (RedditScraper.fresh true "spez").
Proof. reflexivity. Qed.

Example init_url_subreddit :
  RedditScraper.parse_target "https://old.reddit.com/r/python/top/?t=all"
  = Returned (RedditScraper.fresh false "python").
Proof. reflexivity. Qed.

Example init_shorthand :
  RedditScraper.parse_target "u/spez" = Returned (RedditScraper.fresh true "spez")
  ∧ RedditScraper.parse_target "r/python"
    = Returned (RedditScraper.fresh false "python")
  ∧ RedditScraper.parse_target "python"
    = Returned (RedditScraper.fresh false "python").
Proof. repeat split. Qed.

(** ** The existing-post filter *)

Section ExistingFilter.
Context (E : Collab) (w : World E).

Local Abbreviation not_stored := (λ c : Cand, check_post_exists E c.2 w = false).

Lemma filter_agree {A : Type} (P Q : A → Prop)
    `{!∀ x, Decision (P x)} `{!∀ x, Decision (Q x)} (l : list A) :
  (∀ x, x ∈ l → (P x ↔ Q x)) → filter P l = filter Q l.
Proof.
  induction l as [|a l IH]; intros Hpq; [done|].
  rewrite !filter_cons.
  assert (P a ↔ Q a) as Ha by (apply Hpq; left).
  assert (filter P l = filter Q l) as Hl by (apply IH; intros x Hx; apply Hpq; by right).
  destruct (decide (P a)), (decide (Q a)); rewrite ?Hl; tauto.
Qed.

(** The set built for a batch holds exactly the ids of the batch that the
    store reports. *)
Lemma existing_ids_fold (post_ids : list string) :
  ∀ (init : gset string) (x : string),
    x ∈ foldl (λ existing_ids post_id,
                 if check_post_exists E post_id w then {[post_id]} ∪ existing_ids
                 else existing_ids) init post_ids
    ↔ x ∈ init ∨ (x ∈ post_ids ∧ check_post_exists E x w = true).
Proof.
  induction post_ids as [|p rest IH]; intros init x; simpl.
  - rewrite elem_of_nil. tauto.
  - rewrite IH, elem_of_cons.
    destruct (check_post_exists E p w) eqn:Hp.
    + rewrite elem_of_union, elem_of_singleton. split.
      * intros [[->|?]|[? ?]]; auto.
      * intros [?|[[->|?] ?]]; auto.
    + split.
      * intros [?|[? ?]]; auto.
      * intros [?|[[->|?] ?]]; auto. congruence.
Qed.

Lemma existing_ids_spec (post_ids : list string) (x : string) :
  x ∈ RedditScraper.existing_ids_of E post_ids w
  ↔ x ∈ post_ids ∧ check_post_exists E x w = true.
Proof.
  unfold RedditScraper.existing_ids_of. rewrite existing_ids_fold.
  rewrite elem_of_empty. tauto.
Qed.

Lemma filter_batch_spec (batch : list Cand) :
  RedditScraper.filter_batch E batch w = filter not_stored batch.
Proof.
  unfold RedditScraper.filter_batch. apply filter_agree.
  intros c Hc. rewrite existing_ids_spec. split.
  - intros Hno. destruct (check_post_exists E c.2 w) eqn:Hex; [|done].
    exfalso. apply Hno. split; [|done]. by apply list_elem_of_fmap_2.
  - intros Hfalse [_ Htrue]. congruence.
Qed.

(** The batches visited from index [i] on add up to the filtered rest of
    the list. *)
Lemma batches_from (post_urls : list Cand) (batch_size : nat) :
  (1 ≤ batch_size)%nat →
  ∀ (fuel i : nat) (new_posts : list Cand),
    (length post_urls - i ≤ fuel)%nat →
    foldl (λ new_posts i,
             new_posts
             ++ RedditScraper.filter_batch E (take batch_size (drop i post_urls)) w)
          new_posts
          (RedditScraper.range_from fuel i (length post_urls) batch_size)
    = new_posts ++ filter not_stored (drop i post_urls).
Proof.
  intros Hstep. induction fuel as [|fuel' IH]; intros i new_posts Hfuel; simpl.
  - rewrite drop_ge by lia. by rewrite app_nil_r.
  - destruct (i <? length post_urls)%nat eqn:Hi; simpl.
    + rewrite IH by lia. rewrite filter_batch_spec, <- app_assoc. f_equal.
      rewrite <- filter_app. f_equal.
      rewrite <- (drop_drop post_urls batch_size i). apply take_drop.
    + apply Nat.ltb_ge in Hi. rewrite drop_ge by lia. by rewrite app_nil_r.
Qed.

Lemma filter_batches_spec (post_urls : list Cand) (batch_size : nat) :
  (1 ≤ batch_size)%nat →
  RedditScraper.filter_batches E post_urls batch_size w
  = filter not_stored post_urls.
Proof.
  intros Hstep. unfold RedditScraper.filter_batches, RedditScraper.range0.
  rewrite (batches_from post_urls batch_size Hstep) by lia. done.
Qed.

Lemma single_pass_spec (post_urls : list Cand) :
  filter_single_pass E post_urls w = filter not_stored post_urls.
Proof.
  induction post_urls as [|[u id] rest IH]; simpl; [done|].
  rewrite filter_cons. simpl.
  destruct (check_post_exists E id w) eqn:Hex; rewrite IH.
  - by rewrite decide_False.
  - by rewrite decide_True.
Qed.

End ExistingFilter.

(** With a batch size of at least one, the batched filter is the plain
    filter on "not reported by the store". *)
Lemma filter_existing_posts_spec (E : Collab) (post_urls : list Cand)
    (batch_size : Z) (w : World E) :
  1 ≤ batch_size →
  RedditScraper._filter_existing_posts E post_urls batch_size w
  = Returned (filter (λ c : Cand, check_post_exists E c.2 w = false) post_urls).
Proof.
  intros Hstep. unfold RedditScraper._filter_existing_posts.
  rewrite (proj2 (Z.eqb_neq _ _)) by lia.
  rewrite (proj2 (Z.ltb_ge _ _)) by lia.
  f_equal. apply filter_batches_spec. lia.
Qed.

(** C7. For every candidate list and every state of the post store,
    [_filter_existing_posts] (with its batch size of 100) returns exactly
    the candidates whose id the store does not report as existing, in
    their original relative order. *)
Theorem C7_filter_keeps_the_new_in_order (E : Collab) (post_urls : list Cand)
    (w : World E) :
  RedditScraper._filter_existing_posts E post_urls
    RedditScraper.default_batch_size w
  = Returned (filter (λ c : Cand, check_post_exists E c.2 w = false) post_urls).
Proof.
  apply filter_existing_posts_spec. unfold RedditScraper.default_batch_size. lia.
Qed.

(** C9. For every candidate list, every state of the post store and every
    [batch_size >= 1], [_filter_existing_posts] returns what a single pass
    with one existence check per candidate returns. *)
Theorem C9_batching_is_unobservable (E : Collab) (post_urls : list Cand)
    (batch_size : Z) (w : World E) :
  1 ≤ batch_size →
  RedditScraper._filter_existing_posts E post_urls batch_size w
  = Returned (filter_single_pass E post_urls w).
Proof.
  intros Hstep. rewrite single_pass_spec.
  by apply filter_existing_posts_spec.
Qed.

Lemma C9_batching_is_unobservable_witness :
  1 ≤ 2 ∧
  let w := Script.mk [] [] ["b"; "d"] false 0 in
  let post_urls :=
    [Script.cand "a"; Script.cand "b"; Script.cand "c"; Script.cand "d";
     Script.cand "e"] in
  RedditScraper._filter_existing_posts Script.env post_urls 2 w
  = Returned (filter_single_pass Script.env post_urls w).
Proof.
  split; [lia|]. intros w post_urls.
  apply (C9_batching_is_unobservable Script.env post_urls 2 w). lia.
Defined.

Example filter_five_two_existing :
  RedditScraper._filter_existing_posts Script.env
    [Script.cand "a"; Script.cand "b"; Script.cand "c"; Script.cand "d";
     Script.cand "e"]
    2 (Script.mk [] [] ["b"; "d"] false 0)
  = Returned [Script.cand "a"; Script.cand "c"; Script.cand "e"].
Proof. vm_compute. reflexivity. Qed.

Example filter_zero_batch_raises :
  raises (RedditScraper._filter_existing_posts Script.env [Script.cand "a"] 0
            (Script.mk [] [] [] false 0)).
Proof. eexists. reflexivity. Qed.

(** ** The entry point *)

Lemma status_error_result :
  RedditScraper.error_result !! "status" = Some (VStr "error").
Proof. apply lookup_insert_eq. Qed.

Lemma status_all_scraped_result :
  RedditScraper.all_scraped_result !! "status" = Some (VStr "success").
Proof. apply lookup_insert_eq. Qed.

Lemma status_success_result (count total elapsed : Z) :
  RedditScraper.success_result count total elapsed !! "status"
  = Some (VStr "success").
Proof. apply lookup_insert_eq. Qed.

(** The three ways [scrape] ends, by what step 1 and step 2 produce. *)
Lemma scrape_cases (E : Collab) (self : RedditScraper.t) (max_posts : Z)
    (sort_type : string) (keywords : option (list string))
    (progress_callback : option (Callback E)) (s : Sys E) :
  let fetched := RedditScraper.fetch_post_urls E self max_posts sort_type keywords s in
  let result :=
    (RedditScraper.scrape E self max_posts sort_type keywords progress_callback s).1.1 in
  (fetched.1 = [] ∧ result = Returned RedditScraper.error_result)
  ∨ (fetched.1 ≠ []
     ∧ RedditScraper._filter_existing_posts E fetched.1
         RedditScraper.default_batch_size (world fetched.2) = Returned []
     ∧ result = Returned RedditScraper.all_scraped_result)
  ∨ (fetched.1 ≠ []
     ∧ RedditScraper._filter_existing_posts E fetched.1
         RedditScraper.default_batch_size (world fetched.2) ≠ Returned []
     ∧ ∃ count total elapsed,
         result = Returned (RedditScraper.success_result count total elapsed)).
Proof.
  intros fetched result. subst fetched result. unfold RedditScraper.scrape.
  destruct (RedditScraper.fetch_post_urls E self max_posts sort_type keywords s)
    as [post_urls s1].
  destruct post_urls as [|c rest]; cbv beta iota zeta delta [fst snd]; [by left|].
  right.
  rewrite (filter_existing_posts_spec E (c :: rest) RedditScraper.default_batch_size)
    by (unfold RedditScraper.default_batch_size; lia).
  destruct (filter _ (c :: rest)) as [|c' new_urls] eqn:Hnew.
  - left. split; [done|]. split; reflexivity.
  - right. split; [done|]. split; [done|].
    destruct (RedditScraper.fetch_details E _ _ _ _ _ _ s1) as [count s2].
    simpl. by eauto.
Qed.

(** C5, as the code has it. [scrape] reports the status ['error'] exactly
    when the strategies hand back no candidate at all, whether or not
    requests were issued, and the status ['success'] exactly when they hand
    back at least one, however far below the quota. *)
Theorem C5_error_exactly_when_no_candidates (E : Collab)
    (self : RedditScraper.t) (max_posts : Z) (sort_type : string)
    (keywords : option (list string)) (progress_callback : option (Callback E))
    (s : Sys E) :
  let fetched := RedditScraper.fetch_post_urls E self max_posts sort_type keywords s in
  let result :=
    (RedditScraper.scrape E self max_posts sort_type keywords progress_callback s).1.1 in
  (RedditScraper.status result = Some (VStr "error") ↔ fetched.1 = [])
  ∧ (RedditScraper.status result = Some (VStr "success") ↔ fetched.1 ≠ []).
Proof.
  intros fetched result.
  destruct (scrape_cases E self max_posts sort_type keywords progress_callback s)
    as [[Hnil Hres] | [(Hne & _ & Hres) | (Hne & _ & count & total & elapsed & Hres)]];
    fold fetched in Hnil || fold fetched in Hne; fold result in Hres;
    rewrite Hres; simpl;
    rewrite ?status_error_result, ?status_all_scraped_result, ?status_success_result;
    split; split; intros H; try done; try congruence.
Qed.

(** C5, as stated, fails: a run on [r/python] in which the listing is empty
    and the keyword search is really sent (one GET, answered 200 with no
    posts) ends with the status ['error'], although a request was issued. *)
Lemma C5_counterexample :
  let run :=
    RedditScraper.scrape_reddit Script.env "r/python" 5 "hot" (Some ["rust"]) None
      (Script.start [] [HttpResponse 200 (Some [])] []) in
  RedditScraper.status run.1 = Some (VStr "error")
  ∧ filter (λ ev, is_request ev = true) (trace run.2)
    = [EvHttpGet "https://www.reddit.com/r/python/search.json" "rust"].
Proof. cbv zeta. split; vm_compute; reflexivity. Qed.

(** C10. When the strategies return a non-empty candidate list and the
    existing-post filter removes every candidate, [scrape] returns
    [{'status': 'success', 'scraped_count': 0, ...}], not an error. *)
Theorem C10_all_existing_is_success (E : Collab) (self : RedditScraper.t)
    (max_posts : Z) (sort_type : string) (keywords : option (list string))
    (progress_callback : option (Callback E)) (s : Sys E) :
  let fetched := RedditScraper.fetch_post_urls E self max_posts sort_type keywords s in
  let result :=
    (RedditScraper.scrape E self max_posts sort_type keywords progress_callback s).1.1 in
  fetched.1 ≠ [] →
  RedditScraper._filter_existing_posts E fetched.1
    RedditScraper.default_batch_size (world fetched.2) = Returned [] →
  ∃ d : gmap string Value,
    result = Returned d
    ∧ d !! "status" = Some (VStr "success")
    ∧ d !! "scraped_count" = Some (VInt 0).
Proof.
  intros fetched result Hne Hall.
  destruct (scrape_cases E self max_posts sort_type keywords progress_callback s)
    as [[Hnil _] | [(_ & _ & Hres) | (_ & Hsome & _)]].
  - by destruct Hne.
  - exists RedditScraper.all_scraped_result. split; [exact Hres|].
    split; [apply status_all_scraped_result|].
    unfold RedditScraper.all_scraped_result.
    rewrite lookup_insert_ne by done. apply lookup_insert_eq.
  - by destruct Hsome.
Qed.

Lemma C10_all_existing_is_success_witness :
  let s := Script.start [[Script.cand "a"; Script.cand "b"]] [] ["a"; "b"] in
  let self := RedditScraper.fresh false "python" in
  ∃ d : gmap string Value,
    (RedditScraper.scrape Script.env self 2 "hot" None None s).1.1 = Returned d
    ∧ d !! "status" = Some (VStr "success")
    ∧ d !! "scraped_count" = Some (VInt 0).
Proof.
  intros s self.
  apply (C10_all_existing_is_success Script.env self 2 "hot" None None s).
  - vm_compute. discriminate.
  - vm_compute. reflexivity.
Defined.

Example scrape_under_delivers :
  let run :=
    RedditScraper.scrape_reddit Script.env "r/python" 5 "hot" None None
      (Script.start [[Script.cand "a"; Script.cand "b"]] [] ["b"]) in
  RedditScraper.status run.1 = Some (VStr "success")
  ∧ run.1 = Returned (RedditScraper.success_result 1 1 0)
  ∧ filter (λ ev, is_paginated_call ev = false) (trace run.2)
    = [EvTimeRange "python" 3 (Some ["week"; "month"; "year"]) false;
       EvScrapePost (Script.cand "a").1].
Proof. cbv zeta. repeat split; vm_compute; reflexivity. Qed.

(** * Further properties of the harvesting code *)

(** ** The search strategy, continued *)

Section Search.
Context (E : Collab) (target : string) (max_posts : Z).

Local Abbreviation scan := (SearchStrategy.scan max_posts).
Local Abbreviation search_keyword := (SearchStrategy.search_keyword E target max_posts).
Local Abbreviation search_loop := (SearchStrategy.search_loop E target max_posts).
Local Abbreviation urls := SearchStrategy.post_urls.
Local Abbreviation found := SearchStrategy.all_found_posts.

(** Reading one page only appends, keeps the dedup state, and stops at
    [max_posts]; this holds as well when a lookup in the page raises. *)
Lemma scan_spec (posts : list Child) :
  ∀ acc : SearchStrategy.Acc,
    (dedup_inv (urls acc) (found acc) →
     dedup_inv (urls (scan posts acc).1) (found (scan posts acc).1))
    ∧ urls acc `prefix_of` urls (scan posts acc).1
    ∧ len (urls (scan posts acc).1) ≤ Z.max (len (urls acc)) max_posts.
Proof.
  induction posts as [|post rest IH]; intros acc; simpl.
  - split; [done|]. split; [done | lia].
  - destruct (max_posts <=? len (urls acc)) eqn:Hfull; simpl.
    { split; [done|]. split; [done | lia]. }
    apply Z.leb_gt in Hfull.
    destruct post as [[post_id [p|]]|]; simpl.
    + case_decide as Hin; [apply IH|].
      set (acc' := SearchStrategy.mkAcc _ _).
      destruct (IH acc') as (H1 & H2 & H3). subst acc'. simpl in *.
      split; [|split].
      * intros Hinv. apply H1. by apply dedup_inv_snoc.
      * etrans; [|exact H2]. by apply prefix_app_r.
      * rewrite len_app in H3. unfold len in *. simpl in *. lia.
    + case_decide as Hin; [apply IH|]. simpl.
      split; [done|]. split; [done | lia].
    + split; [done|]. split; [done | lia].
Qed.

(** One keyword: exactly one request, and the same three facts. *)
Lemma search_keyword_spec (keyword : string) (acc : SearchStrategy.Acc)
    (s : Sys E) :
  (dedup_inv (urls acc) (found acc) →
   dedup_inv (urls (search_keyword keyword acc s).1)
             (found (search_keyword keyword acc s).1))
  ∧ urls acc `prefix_of` urls (search_keyword keyword acc s).1
  ∧ len (urls (search_keyword keyword acc s).1) ≤ Z.max (len (urls acc)) max_posts
  ∧ trace (search_keyword keyword acc s).2
    = trace s ++ [EvHttpGet (SearchStrategy.search_url target) keyword].
Proof.
  unfold SearchStrategy.search_keyword.
  destruct (get_delay E (world s)) as [delay w1].
  destruct (session_get E _ keyword _) as [response w3].
  assert (
    (dedup_inv (urls acc) (found acc) → dedup_inv (urls acc) (found acc))
    ∧ urls acc `prefix_of` urls acc
    ∧ len (urls acc) ≤ Z.max (len (urls acc)) max_posts
    ∧ trace s ++ [EvHttpGet (SearchStrategy.search_url target) keyword]
      = trace s ++ [EvHttpGet (SearchStrategy.search_url target) keyword])
    as Hsame by (split; [done|]; split; [done|]; split; [lia | done]).
  destruct response as [|status_code body]; simpl; [by apply Hsame|].
  destruct (status_code =? 200); simpl.
  - destruct body as [posts|]; simpl; [|by apply Hsame].
    destruct (scan_spec posts acc) as (H1 & H2 & H3).
    destruct (scan posts acc) as [acc' raised]. simpl in *. done.
  - destruct (status_code =? 429); simpl; by apply Hsame.
Qed.

(** Once the quota is met or the rate controller advises to skip, the loop
    leaves at once. *)
Lemma search_loop_stop (keywords : list string) (acc : SearchStrategy.Acc)
    (s : Sys E) :
  max_posts ≤ len (urls acc) ∨ should_skip_strategy E (world s) = true →
  search_loop keywords acc s = (acc, s).
Proof.
  intros Hstop. destruct keywords as [|k rest]; simpl; [done|].
  destruct (max_posts <=? len (urls acc)) eqn:Hfull; [done|].
  apply Z.leb_gt in Hfull. destruct Hstop as [? | ->]; [lia | done].
Qed.

Lemma search_loop_app (done rest : list string) :
  ∀ (acc : SearchStrategy.Acc) (s : Sys E),
    search_loop (done ++ rest) acc s
    = search_loop rest (search_loop done acc s).1 (search_loop done acc s).2.
Proof.
  induction done as [|k done' IH]; intros acc s; simpl; [done|].
  destruct (max_posts <=? len (urls acc)) eqn:Hfull; simpl.
  { symmetry. apply search_loop_stop. left. by apply Z.leb_le. }
  destruct (should_skip_strategy E (world s)) eqn:Hskip; simpl.
  { symmetry. apply search_loop_stop. by right. }
  destruct (search_keyword k acc s) as [acc' s']. apply IH.
Qed.

(** The whole loop: the requests go to the keywords in order, one each,
    for an initial stretch of the list. *)
Lemma search_loop_spec (keywords : list string) :
  ∀ (acc : SearchStrategy.Acc) (s : Sys E),
    (dedup_inv (urls acc) (found acc) →
     dedup_inv (urls (search_loop keywords acc s).1)
               (found (search_loop keywords acc s).1))
    ∧ urls acc `prefix_of` urls (search_loop keywords acc s).1
    ∧ len (urls (search_loop keywords acc s).1) ≤ Z.max (len (urls acc)) max_posts
    ∧ ∃ asked : list string,
        asked `prefix_of` keywords
        ∧ trace (search_loop keywords acc s).2
          = trace s ++ (EvHttpGet (SearchStrategy.search_url target) <$> asked).
Proof.
  induction keywords as [|k rest IH]; intros acc s; simpl.
  - split; [done|]. split; [done|]. split; [lia|].
    exists []. split; [done|]. simpl. by rewrite app_nil_r.
  - assert ((dedup_inv (urls acc) (found acc) → dedup_inv (urls acc) (found acc))
            ∧ urls acc `prefix_of` urls acc
            ∧ len (urls acc) ≤ Z.max (len (urls acc)) max_posts
            ∧ ∃ asked : list string,
                asked `prefix_of` k :: rest
                ∧ trace s
                  = trace s ++ (EvHttpGet (SearchStrategy.search_url target) <$> asked))
      as Hstay.
    { split; [done|]. split; [done|]. split; [lia|].
      exists []. split; [apply prefix_nil|]. simpl. by rewrite app_nil_r. }
    destruct (max_posts <=? len (urls acc)); [exact Hstay|].
    destruct (should_skip_strategy E (world s)); [exact Hstay|].
    destruct (search_keyword_spec k acc s) as (K1 & K2 & K3 & K4).
    destruct (search_keyword k acc s) as [acc' s']. simpl in K1, K2, K3, K4.
    destruct (IH acc' s') as (I1 & I2 & I3 & asked & I4 & I5).
    split; [by auto|]. split; [by etrans|]. split; [lia|].
    exists (k :: asked). split; [by apply prefix_cons|].
    rewrite I5, K4, <- app_assoc. done.
Qed.

End Search.

(** X1. Whatever the endpoint answers, the list [SearchStrategy.fetch_posts]
    returns holds no id twice and never more than [max_posts] candidates
    (none at all when [max_posts] is not positive). *)
Theorem search_result_dedup_and_bounded (E : Collab) (target : string)
    (max_posts : Z) (keywords : option (list string)) (s : Sys E) :
  NoDup (SearchStrategy.fetch_posts E target max_posts keywords s).1.*2
  ∧ len (SearchStrategy.fetch_posts E target max_posts keywords s).1
    ≤ Z.max 0 max_posts.
Proof.
  unfold SearchStrategy.fetch_posts.
  assert (NoDup (@nil Cand).*2 ∧ len (@nil Cand) ≤ Z.max 0 max_posts) as Hnil.
  { split; [constructor|]. rewrite len_nil. lia. }
  destruct keywords as [[|k kws]|]; cbv beta iota zeta; [done| |done].
  destruct (should_skip_strategy E _); [done|].
  set (s0 := mkSys (world s) _).
  destruct (search_loop_spec E target max_posts (k :: kws)
              (SearchStrategy.mkAcc [] ∅) s0) as (H1 & _ & H3 & _).
  destruct (SearchStrategy.search_loop E target max_posts (k :: kws) _ s0)
    as [acc s']. simpl in *.
  split; [apply H1, dedup_inv_nil | done].
Qed.

(** X2. Without keywords ([None] or an empty list), or when the rate
    controller already advises to skip, [SearchStrategy.fetch_posts] returns
    the empty list and touches nothing: no request, no sleep, the world as
    it was. *)
Theorem search_idle_without_keywords_or_on_skip (E : Collab) (target : string)
    (max_posts : Z) (keywords : option (list string)) (s : Sys E) :
  SubredditScraper.truthy keywords = false
  ∨ should_skip_strategy E (world s) = true →
  SearchStrategy.fetch_posts E target max_posts keywords s
  = ([], mkSys (world s) (trace s ++ [EvSearch target max_posts keywords])).
Proof.
  intros Hidle. unfold SearchStrategy.fetch_posts.
  destruct keywords as [[|k kws]|]; simpl in *; [done| |done].
  destruct Hidle as [? | ->]; done.
Qed.

Lemma search_idle_without_keywords_or_on_skip_witness :
  (SearchStrategy.fetch_posts Script.env "python" 5 (Some [])
     (Script.start [] [HttpResponse 200 (Some [Script.child "a"])] [])).1 = [].
Proof.
  rewrite (search_idle_without_keywords_or_on_skip Script.env "python" 5 (Some [])).
  - reflexivity.
  - left. reflexivity.
Defined.

(** The calls of one [SearchStrategy.fetch_posts]: the invocation itself,
    then one request for each keyword of an initial stretch of the list. *)
Lemma search_fetch_trace (E : Collab) (target : string) (max_posts : Z)
    (keywords : option (list string)) (s : Sys E) :
  ∃ asked : list string,
    asked `prefix_of` default [] keywords
    ∧ trace (SearchStrategy.fetch_posts E target max_posts keywords s).2
      = trace s ++ EvSearch target max_posts keywords
                   :: (EvHttpGet (SearchStrategy.search_url target) <$> asked).
Proof.
  unfold SearchStrategy.fetch_posts.
  destruct keywords as [[|k kws]|]; cbv beta iota zeta.
  1, 3: (exists []; split; [apply prefix_nil | done]).
  destruct (should_skip_strategy E _).
  { exists []. split; [apply prefix_nil | done]. }
  set (s0 := mkSys (world s) _).
  destruct (search_loop_spec E target max_posts (k :: kws)
              (SearchStrategy.mkAcc [] ∅) s0) as (_ & _ & _ & asked & H4 & H5).
  destruct (SearchStrategy.search_loop E target max_posts (k :: kws) _ s0)
    as [acc s']. simpl in *.
  exists asked. split; [done|]. rewrite H5, <- app_assoc. done.
Qed.

(** X3. [SearchStrategy.fetch_posts] sends at most one request per keyword,
    each to the search endpoint of the target, and in the order of the
    keyword list: the keywords asked form an initial stretch of the list. *)
Theorem search_requests_follow_keywords (E : Collab) (target : string)
    (max_posts : Z) (keywords : list string) (s : Sys E) :
  ∃ asked : list string,
    asked `prefix_of` keywords
    ∧ trace (SearchStrategy.fetch_posts E target max_posts (Some keywords) s).2
      = trace s ++ EvSearch target max_posts (Some keywords)
                   :: (EvHttpGet (SearchStrategy.search_url target) <$> asked).
Proof. apply (search_fetch_trace E target max_posts (Some keywords) s). Qed.

(** X4. What earlier keywords found is never lost: the candidates held
    after the keywords [done] are an initial stretch of the candidates held
    after [done ++ rest], whatever the later requests do (raise, 429, 5xx,
    a malformed page). *)
Theorem search_keeps_earlier_findings (E : Collab) (target : string)
    (max_posts : Z) (done rest : list string) (acc : SearchStrategy.Acc)
    (s : Sys E) :
  SearchStrategy.post_urls
    (SearchStrategy.search_loop E target max_posts done acc s).1
  `prefix_of`
  SearchStrategy.post_urls
    (SearchStrategy.search_loop E target max_posts (done ++ rest) acc s).1.
Proof.
  rewrite search_loop_app.
  apply (search_loop_spec E target max_posts rest).
Qed.

(** ** The time-range strategy, continued *)

Section TimeRangeCalls.
Context (E : Collab) (target : string) (max_posts : Z) (is_user_mode : bool).

Local Abbreviation windows := (TimeRangeStrategy.windows E target max_posts is_user_mode).
Local Abbreviation window := (TimeRangeStrategy.window E target max_posts is_user_mode).
Local Abbreviation window_call :=
  (TimeRangeStrategy.window_call target max_posts is_user_mode).

(** One window, without any assumption on the listing. *)
Lemma window_shape (time_range : string) (acc : TimeRangeStrategy.Acc)
    (s : Sys E) :
  (dedup_inv (TimeRangeStrategy.post_urls acc) (TimeRangeStrategy.collected_ids acc) →
   dedup_inv (TimeRangeStrategy.post_urls (window time_range acc s).1)
             (TimeRangeStrategy.collected_ids (window time_range acc s).1))
  ∧ TimeRangeStrategy.post_urls acc
    `prefix_of` TimeRangeStrategy.post_urls (window time_range acc s).1
  ∧ trace (window time_range acc s).2
    = trace s ++ [EvPaginated (window_call time_range acc)].
Proof.
  unfold TimeRangeStrategy.window.
  set (c := window_call time_range acc).
  destruct (paginated_fetch_posts E c (world s)) as [batch_posts w].
  pose proof (merge_new_shift batch_posts (TimeRangeStrategy.post_urls acc)
                (TimeRangeStrategy.collected_ids acc)) as Hshift.
  pose proof (merge_new_spec batch_posts (TimeRangeStrategy.post_urls acc)
                (TimeRangeStrategy.collected_ids acc)) as Hspec.
  rewrite Hshift in Hspec.
  destruct (merge_new batch_posts [] (TimeRangeStrategy.collected_ids acc))
    as [batch_new collected].
  simpl in *. split; [|split; [|done]].
  - intros Hinv. by apply Hspec.
  - by apply prefix_app_r.
Qed.

(** The loop: one call per window, in the order of the windows, each for
    the ['top'] listing of that window. *)
Lemma windows_shape (time_ranges : list string) :
  ∀ (acc : TimeRangeStrategy.Acc) (s : Sys E),
    (dedup_inv (TimeRangeStrategy.post_urls acc) (TimeRangeStrategy.collected_ids acc) →
     dedup_inv (TimeRangeStrategy.post_urls (windows time_ranges acc s).1)
               (TimeRangeStrategy.collected_ids (windows time_ranges acc s).1))
    ∧ TimeRangeStrategy.post_urls acc
      `prefix_of` TimeRangeStrategy.post_urls (windows time_ranges acc s).1
    ∧ ∃ calls : list PagCall,
        trace (windows time_ranges acc s).2 = trace s ++ (EvPaginated <$> calls)
        ∧ pc_time_filter <$> calls `prefix_of` Some <$> time_ranges
        ∧ Forall (λ c, pc_target c = target ∧ pc_sort_type c = "top"
                       ∧ pc_is_user_mode c = is_user_mode
                       ∧ 100 ≤ pc_max_posts c ≤ 1000) calls.
Proof.
  induction time_ranges as [|r rest IH]; intros acc s; simpl.
  - split; [done|]. split; [done|]. exists []. simpl.
    rewrite app_nil_r. split; [done|]. split; [done | constructor].
  - destruct (max_posts <=? len (TimeRangeStrategy.post_urls acc)).
    { split; [done|]. split; [done|]. exists []. simpl.
      rewrite app_nil_r. split; [done|]. split; [apply prefix_nil | constructor]. }
    destruct (window_shape r acc s) as (W1 & W2 & W3).
    destruct (window r acc s) as [acc' s']. simpl in W1, W2, W3.
    destruct (IH acc' s') as (I1 & I2 & calls & I3 & I4 & I5).
    split; [by auto|]. split; [by etrans|].
    exists (window_call r acc :: calls). split; [|split].
    + rewrite I3, W3, <- app_assoc. done.
    + simpl. by apply prefix_cons.
    + constructor; [|done]. simpl.
      unfold TimeRangeStrategy.window_quota. repeat split; lia.
Qed.

End TimeRangeCalls.

(** The windows a [fetch_posts] call works through. *)
Lemma time_range_fetch_shape (E : Collab) (target : string) (max_posts : Z)
    (time_ranges : option (list string)) (is_user_mode : bool) (s : Sys E) :
  let ranges :=
    match time_ranges with
    | None | Some [] => TimeRangeStrategy.default_time_ranges
    | Some l => l
    end in
  let run := TimeRangeStrategy.fetch_posts E target max_posts time_ranges
               is_user_mode s in
  NoDup run.1.*2
  ∧ ∃ calls : list PagCall,
      trace run.2
      = trace s ++ EvTimeRange target max_posts time_ranges is_user_mode
                   :: (EvPaginated <$> calls)
      ∧ pc_time_filter <$> calls `prefix_of` Some <$> ranges
      ∧ Forall (λ c, pc_target c = target ∧ pc_sort_type c = "top"
                     ∧ pc_is_user_mode c = is_user_mode
                     ∧ 100 ≤ pc_max_posts c ≤ 1000) calls.
Proof.
  intros ranges run. subst run. unfold TimeRangeStrategy.fetch_posts.
  fold ranges. set (s0 := mkSys (world s) _).
  destruct (windows_shape E target max_posts is_user_mode ranges
              (TimeRangeStrategy.mkAcc [] ∅) s0) as (H1 & _ & calls & H3 & H4 & H5).
  destruct (TimeRangeStrategy.windows E target max_posts is_user_mode ranges _ s0)
    as [acc s']. simpl in *.
  split; [apply H1, dedup_inv_nil|].
  exists calls. split; [|done]. rewrite H3, <- app_assoc. done.
Qed.

(** X5. Whatever the listing serves, [TimeRangeStrategy.fetch_posts]
    returns no id twice, and it calls the paginated strategy once per
    window, in the order of the window list and for an initial stretch of
    it (the default list [day, week, month, year, all] when none is given),
    each time for the ['top'] listing of the same target with a quota
    between 100 and 1000. *)
Theorem time_range_calls_follow_windows (E : Collab) (target : string)
    (max_posts : Z) (time_ranges : option (list string)) (is_user_mode : bool)
    (s : Sys E) :
  let ranges :=
    match time_ranges with
    | None | Some [] => TimeRangeStrategy.default_time_ranges
    | Some l => l
    end in
  let run := TimeRangeStrategy.fetch_posts E target max_posts time_ranges
               is_user_mode s in
  NoDup run.1.*2
  ∧ ∃ calls : list PagCall,
      trace run.2
      = trace s ++ EvTimeRange target max_posts time_ranges is_user_mode
                   :: (EvPaginated <$> calls)
      ∧ pc_time_filter <$> calls `prefix_of` Some <$> ranges
      ∧ Forall (λ c, pc_target c = target ∧ pc_sort_type c = "top"
                     ∧ pc_is_user_mode c = is_user_mode
                     ∧ 100 ≤ pc_max_posts c ≤ 1000) calls.
Proof. apply time_range_fetch_shape. Qed.

(** X6. With a quota that is not positive, [TimeRangeStrategy.fetch_posts]
    returns the empty list without calling the paginated strategy for any
    window. *)
Theorem time_range_idle_without_quota (E : Collab) (target : string)
    (max_posts : Z) (time_ranges : option (list string)) (is_user_mode : bool)
    (s : Sys E) :
  max_posts ≤ 0 →
  TimeRangeStrategy.fetch_posts E target max_posts time_ranges is_user_mode s
  = ([], mkSys (world s)
           (trace s ++ [EvTimeRange target max_posts time_ranges is_user_mode])).
Proof.
  intros Hq. unfold TimeRangeStrategy.fetch_posts.
  rewrite windows_full; [done|]. simpl. rewrite len_nil. lia.
Qed.

Lemma time_range_idle_without_quota_witness :
  (TimeRangeStrategy.fetch_posts Script.env "python" 0 None false
     (Script.start [[Script.cand "a"]] [] [])).1 = []
  ∧ 0 ≤ 0.
Proof.
  split; [|lia].
  rewrite (time_range_idle_without_quota Script.env "python" 0 None false).
  - reflexivity.
  - lia.
Defined.

(** ** The coordinator, continued *)

(** The shape of every coordinator run: the deduplicated primary posts come
    first in the result, the primary call comes first in the trace, and
    what follows are fallback calls. *)
Lemma coordinator_shape (E : Collab) (subreddit : string) (max_posts : Z)
    (sort_type : string) (keywords : option (list string)) (s : Sys E) :
  let c := SubredditScraper.primary_call subreddit max_posts sort_type in
  let all1 := (merge_new (paginated_fetch_posts E c (world s)).1 [] ∅).1 in
  let run :=
    SubredditScraper.fetch_subreddit_posts E subreddit max_posts sort_type
      keywords s in
  all1 `prefix_of` run.1
  ∧ ∃ evs : list Event,
      trace run.2 = trace s ++ EvPaginated c :: evs
      ∧ Forall (fallback_event subreddit sort_type keywords (max_posts - len all1))
               evs.
Proof.
  intros c all1 run. subst run all1.
  unfold SubredditScraper.fetch_subreddit_posts. fold c.
  destruct (paginated_fetch_posts E c (world s)) as [primary_posts w1].
  simpl fst.
  destruct (primary_merge primary_posts) as [Hinv1 _].
  destruct (merge_new primary_posts [] ∅) as [all1 ids1]. simpl in Hinv1. simpl fst.
  set (s1 := mkSys w1 _).
  destruct (len all1 <? max_posts) eqn:Hdeficit.
  2: { simpl. split; [done|]. exists []. split; [done | constructor]. }
  apply Z.ltb_lt in Hdeficit.
  (* strategy 2 *)
  set (st2 := if negb (String.eqb sort_type "top") then _ else _).
  assert (dedup_inv st2.1.1 st2.1.2 ∧ all1 `prefix_of` st2.1.1
          ∧ len st2.1.1 ≤ max_posts
          ∧ ∃ evs2, trace st2.2 = trace s1 ++ evs2
              ∧ Forall (fallback_event subreddit sort_type keywords
                          (max_posts - len all1)) evs2)
    as (Hinv2 & Hpre2 & Hlen2 & evs2 & Htr2 & Hev2).
  { subst st2. destruct (String.eqb sort_type "top") eqn:Htop; simpl.
    - split; [done|]. split; [done|]. split; [lia|].
      exists []. split; [by rewrite app_nil_r | constructor].
    - apply String.eqb_neq in Htop.
      destruct (time_range_fetch_shape E subreddit (max_posts - len all1)
                  (Some ["week"; "month"; "year"]) false s1)
        as (_ & calls & T1 & _).
      destruct (TimeRangeStrategy.fetch_posts E _ _ _ _ s1) as [posts s'].
      simpl in T1.
      destruct (merge_until_spec max_posts posts all1 ids1 Hinv1 Hdeficit)
        as (H1 & H2 & H3).
      destruct (SubredditScraper.merge_until max_posts posts all1 ids1)
        as [all2 ids2]. simpl in *.
      split; [done|]. split; [done|]. split; [done|].
      eexists. split; [exact T1|].
      constructor; [simpl; repeat split; try done; lia|].
      apply Forall_fmap, Forall_true. intros call. exact Htop. }
  destruct st2 as [[all2 ids2] s2]. simpl in Hinv2, Hpre2, Hlen2, Htr2.
  (* strategy 3 *)
  destruct (SubredditScraper.truthy keywords && (len all2 <? max_posts)) eqn:Hk.
  2: { simpl. split; [done|]. exists evs2. split; [|done].
       rewrite Htr2. subst s1. simpl. by rewrite <- app_assoc. }
  apply andb_prop in Hk as [Hkw Hdef2]. apply Z.ltb_lt in Hdef2.
  destruct (search_fetch_trace E subreddit (max_posts - len all2) keywords s2)
    as (asked & _ & S1).
  destruct (SearchStrategy.fetch_posts E _ _ _ s2) as [posts s3]. simpl in S1.
  destruct (merge_until_spec max_posts posts all2 ids2 Hinv2 Hdef2)
    as (_ & H2 & _).
  simpl. split; [by etrans|].
  exists (evs2 ++ EvSearch subreddit (max_posts - len all2) keywords
                  :: (EvHttpGet (SearchStrategy.search_url subreddit) <$> asked)).
  split.
  - rewrite S1, Htr2. subst s1. simpl. by rewrite <- !app_assoc.
  - apply Forall_app. split; [done|].
    constructor.
    + simpl. split; [done|]. split; [done|]. split; [|done].
      destruct Hpre2 as [k ->]. rewrite len_app.
      pose proof (len_nonneg k). rewrite len_app in Hdef2. lia.
    + apply Forall_fmap, Forall_true. intros q. exact Hkw.
Qed.

(** X7. In the list the coordinator returns, the deduplicated posts of the
    primary strategy come first, in the order the primary strategy gave
    them; what the fallback strategies add comes after. *)
Theorem coordinator_primary_first (E : Collab) (subreddit : string)
    (max_posts : Z) (sort_type : string) (keywords : option (list string))
    (s : Sys E) :
  let c := SubredditScraper.primary_call subreddit max_posts sort_type in
  (merge_new (paginated_fetch_posts E c (world s)).1 [] ∅).1
  `prefix_of`
  (SubredditScraper.fetch_subreddit_posts E subreddit max_posts sort_type
     keywords s).1.
Proof. apply coordinator_shape. Qed.

(** X8. With the sort type ['top'] the coordinator never invokes the
    time-range strategy: after the primary call no paginated call and no
    [TimeRangeStrategy.fetch_posts] call is made. *)
Theorem coordinator_top_skips_time_range (E : Collab) (subreddit : string)
    (max_posts : Z) (keywords : option (list string)) (s : Sys E) :
  ∃ evs : list Event,
    trace (SubredditScraper.fetch_subreddit_posts E subreddit max_posts "top"
             keywords s).2
    = trace s ++ EvPaginated (SubredditScraper.primary_call subreddit max_posts "top")
                 :: evs
    ∧ Forall (λ ev, is_paginated_call ev = false ∧ is_time_range_call ev = false)
             evs.
Proof.
  destruct (coordinator_shape E subreddit max_posts "top" keywords s)
    as (_ & evs & Htr & Hev).
  exists evs. split; [exact Htr|].
  eapply Forall_impl; [exact Hev|].
  intros [] Hok; simpl in *; try done; by destruct Hok.
Qed.

(** X9. Without keywords ([None] or an empty list) the coordinator never
    invokes the search strategy and sends no search request. *)
Theorem coordinator_no_keywords_no_search (E : Collab) (subreddit : string)
    (max_posts : Z) (sort_type : string) (keywords : option (list string))
    (s : Sys E) :
  SubredditScraper.truthy keywords = false →
  ∃ evs : list Event,
    trace (SubredditScraper.fetch_subreddit_posts E subreddit max_posts
             sort_type keywords s).2
    = trace s ++ evs
    ∧ Forall (λ ev, is_search_event ev = false) evs.
Proof.
  intros Hkw.
  destruct (coordinator_shape E subreddit max_posts sort_type keywords s)
    as (_ & evs & Htr & Hev).
  eexists. split; [exact Htr|].
  constructor; [done|].
  eapply Forall_impl; [exact Hev|].
  intros [] Hok; simpl in *; try done; [destruct Hok as [Hok _]|]; congruence.
Qed.

Lemma coordinator_no_keywords_no_search_witness :
  ∃ evs : list Event,
    trace (SubredditScraper.fetch_subreddit_posts Script.env "python" 3 "hot"
             (Some [])
             (Script.start [[Script.cand "a"]]
                [HttpResponse 200 (Some [Script.child "b"])] [])).2
    = [] ++ evs
    ∧ Forall (λ ev, is_search_event ev = false) evs.
Proof.
  apply (coordinator_no_keywords_no_search Script.env "python" 3 "hot" (Some [])).
  reflexivity.
Defined.


(** ** The entry point, continued *)

Section Details.
Context (E : Collab) (max_posts : Z) (progress_callback : option (Callback E)).

Local Abbreviation fetch_details :=
  (RedditScraper.fetch_details E max_posts progress_callback).

(** Step 3: the count only grows, never past [max_posts] unless it was
    there already, and the posts fetched are an initial stretch of the
    list, in order. *)
Lemma fetch_details_spec (post_urls : list Cand) :
  ∀ (n i count : Z) (s : Sys E),
    count ≤ (fetch_details n i post_urls count s).1
    ∧ (fetch_details n i post_urls count s).1 ≤ Z.max count max_posts
    ∧ ∃ fetched : list Cand,
        fetched `prefix_of` post_urls
        ∧ trace (fetch_details n i post_urls count s).2
          = trace s ++ (EvScrapePost <$> fetched.*1).
Proof.
  induction post_urls as [|[post_url post_id] rest IH]; intros n i count s; simpl.
  - split; [lia|]. split; [lia|]. exists []. split; [done|].
    simpl. by rewrite app_nil_r.
  - destruct (max_posts <=? count) eqn:Hfull.
    { simpl. split; [lia|]. split; [lia|]. exists []. split; [apply prefix_nil|].
      simpl. by rewrite app_nil_r. }
    apply Z.leb_gt in Hfull.
    destruct (scrape_post E post_url (world s)) as [result w1].
    set (step := match result with Some _ => _ | None => _ end).
    assert (count ≤ step.1 ≤ max_posts) as Hstep.
    { subst step. destruct result as [post_data|]; simpl; [|lia].
      destruct (save_post E post_data w1). simpl. lia. }
    destruct step as [count' w2]. simpl in Hstep.
    set (s' := mkSys _ (trace s ++ [EvScrapePost post_url])).
    destruct (IH n (i + 1) count' s') as (H1 & H2 & fetched & H3 & H4).
    split; [lia|]. split; [lia|].
    exists ((post_url, post_id) :: fetched). split; [by apply prefix_cons|].
    rewrite H4. subst s'. simpl. by rewrite <- app_assoc.
Qed.

(** Nothing is fetched when the count has already reached [max_posts]. *)
Lemma fetch_details_exhausted (post_urls : list Cand) (n i count : Z)
    (s : Sys E) :
  max_posts ≤ count → fetch_details n i post_urls count s = (count, s).
Proof.
  intros Hfull. destruct post_urls as [|[u p] rest]; simpl; [done|].
  by rewrite (proj2 (Z.leb_le _ _) Hfull).
Qed.

End Details.

(** [scrape] by its step 3: the count and the trace it ends with are those
    of the detail loop run on the candidates the store does not hold. *)
Lemma scrape_by_details (E : Collab) (self : RedditScraper.t) (max_posts : Z)
    (sort_type : string) (keywords : option (list string))
    (progress_callback : option (Callback E)) (s : Sys E) :
  let fetched := RedditScraper.fetch_post_urls E self max_posts sort_type keywords s in
  let new_urls :=
    filter (λ c : Cand, check_post_exists E c.2 (world fetched.2) = false)
      fetched.1 in
  let details :=
    RedditScraper.fetch_details E max_posts progress_callback (len new_urls) 1
      new_urls (RedditScraper.scraped_count self) fetched.2 in
  let run :=
    RedditScraper.scrape E self max_posts sort_type keywords progress_callback s in
  RedditScraper.scraped_count run.1.2 = details.1
  ∧ trace run.2 = trace details.2.
Proof.
  intros fetched new_urls details run.
  subst run details new_urls fetched. unfold RedditScraper.scrape.
  destruct (RedditScraper.fetch_post_urls E self max_posts sort_type keywords s)
    as [post_urls s1].
  destruct post_urls as [|c rest]; cbv beta iota zeta delta [fst snd]; [done|].
  rewrite (filter_existing_posts_spec E (c :: rest) RedditScraper.default_batch_size)
    by (unfold RedditScraper.default_batch_size; lia).
  destruct (filter _ (c :: rest)) as [|c' new_urls]; [done|].
  destruct (RedditScraper.fetch_details E _ _ _ _ _ _ s1) as [count s2].
  done.
Qed.

(** X11. [scrape] fetches the details only of candidates the post store
    does not hold: the posts handed to [scrape_post] are, in order, an
    initial stretch of the candidates that pass the existing-post filter. *)
Theorem scrape_fetches_only_new_candidates (E : Collab) (self : RedditScraper.t)
    (max_posts : Z) (sort_type : string) (keywords : option (list string))
    (progress_callback : option (Callback E)) (s : Sys E) :
  let fetched := RedditScraper.fetch_post_urls E self max_posts sort_type keywords s in
  let run :=
    RedditScraper.scrape E self max_posts sort_type keywords progress_callback s in
  ∃ detailed : list Cand,
    detailed
    `prefix_of` filter (λ c : Cand, check_post_exists E c.2 (world fetched.2) = false)
                  fetched.1
    ∧ trace run.2 = trace fetched.2 ++ (EvScrapePost <$> detailed.*1).
Proof.
  intros fetched run.
  destruct (scrape_by_details E self max_posts sort_type keywords
              progress_callback s) as [_ Htr].
  fold fetched run in Htr. cbv zeta in Htr.
  set (new_urls := filter _ fetched.1) in *.
  destruct (fetch_details_spec E max_posts progress_callback new_urls
              (len new_urls) 1 (RedditScraper.scraped_count self) fetched.2)
    as (_ & _ & detailed & Hpre & Hdet).
  exists detailed. split; [done|]. by rewrite Htr.
Qed.

(** X12. The count of scraped posts a scraper carries never goes down in a
    [scrape] call and never passes [max_posts], unless it was past it
    before the call. *)
Theorem scrape_count_within_quota (E : Collab) (self : RedditScraper.t)
    (max_posts : Z) (sort_type : string) (keywords : option (list string))
    (progress_callback : option (Callback E)) (s : Sys E) :
  let after :=
    (RedditScraper.scrape E self max_posts sort_type keywords progress_callback s).1.2 in
  RedditScraper.scraped_count self ≤ RedditScraper.scraped_count after
  ∧ RedditScraper.scraped_count after
    ≤ Z.max (RedditScraper.scraped_count self) max_posts.
Proof.
  intros after. subst after.
  destruct (scrape_by_details E self max_posts sort_type keywords
              progress_callback s) as [Hcount _].
  cbv zeta in Hcount. rewrite Hcount.
  set (fetched := RedditScraper.fetch_post_urls E self max_posts sort_type keywords s).
  set (new_urls := filter _ fetched.1).
  destruct (fetch_details_spec E max_posts progress_callback new_urls
              (len new_urls) 1 (RedditScraper.scraped_count self) fetched.2)
    as (H1 & H2 & _).
  done.
Qed.

(** X13. A scraper whose count has already reached [max_posts] fetches no
    post at all in a further [scrape] call: the candidates are listed and
    filtered, but [scrape_post] is never called and the count stays. *)
Theorem scrape_exhausted_fetches_nothing (E : Collab) (self : RedditScraper.t)
    (max_posts : Z) (sort_type : string) (keywords : option (list string))
    (progress_callback : option (Callback E)) (s : Sys E) :
  let fetched := RedditScraper.fetch_post_urls E self max_posts sort_type keywords s in
  let run :=
    RedditScraper.scrape E self max_posts sort_type keywords progress_callback s in
  max_posts ≤ RedditScraper.scraped_count self →
  trace run.2 = trace fetched.2
  ∧ RedditScraper.scraped_count run.1.2 = RedditScraper.scraped_count self.
Proof.
  intros fetched run Hfull.
  destruct (scrape_by_details E self max_posts sort_type keywords
              progress_callback s) as [Hcount Htr].
  fold fetched run in Hcount, Htr. cbv zeta in Hcount, Htr.
  rewrite fetch_details_exhausted in Hcount, Htr by done.
  done.
Qed.

Lemma scrape_exhausted_fetches_nothing_witness :
  let self := RedditScraper.mk false "python" 2 0 0 in
  let s := Script.start [[Script.cand "a"; Script.cand "b"]] [] [] in
  filter (λ ev, is_paginated_call ev = false)
    (trace (RedditScraper.scrape Script.env self 2 "hot" None None s).2)
  = []
  ∧ 2 ≤ 2.
Proof.
  intros self s. split; [|lia].
  destruct (scrape_exhausted_fetches_nothing Script.env self 2 "hot" None None s)
    as [Htr _].
  - simpl. lia.
  - rewrite Htr. reflexivity.
Defined.

(** ** The existing-post filter, continued *)

(** X14. For batch sizes of at least one, what [_filter_existing_posts]
    returns is a sub-list of its input in the same order, and filtering it
    once more against the same store changes nothing. *)
Theorem filter_existing_is_stable (E : Collab) (post_urls : list Cand)
    (batch_size batch_size' : Z) (w : World E) :
  1 ≤ batch_size →
  1 ≤ batch_size' →
  ∃ kept : list Cand,
    RedditScraper._filter_existing_posts E post_urls batch_size w = Returned kept
    ∧ kept `sublist_of` post_urls
    ∧ RedditScraper._filter_existing_posts E kept batch_size' w = Returned kept.
Proof.
  intros Hb Hb'. eexists. split; [by apply filter_existing_posts_spec|].
  split; [apply sublist_filter|].
  rewrite filter_existing_posts_spec by done. f_equal.
  by apply list_filter_filter_l.
Qed.

Lemma filter_existing_is_stable_witness :
  1 ≤ 2 ∧ 1 ≤ 100 ∧
  ∃ kept : list Cand,
    RedditScraper._filter_existing_posts Script.env
      [Script.cand "a"; Script.cand "b"; Script.cand "c"] 2
      (Script.mk [] [] ["b"] false 0) = Returned kept
    ∧ kept `sublist_of` [Script.cand "a"; Script.cand "b"; Script.cand "c"]
    ∧ RedditScraper._filter_existing_posts Script.env kept 100
        (Script.mk [] [] ["b"] false 0) = Returned kept.
Proof.
  split; [lia|]. split; [lia|].
  apply (filter_existing_is_stable Script.env
           [Script.cand "a"; Script.cand "b"; Script.cand "c"] 2 100
           (Script.mk [] [] ["b"] false 0)); lia.
Defined.

(** ** The target parser, continued *)

Lemma substring_all (s : string) : String.substring 0 (String.length s) s = s.
Proof. induction s as [|a s IH]; simpl; [done | by rewrite IH]. Qed.

Lemma contains_false (sub s : string) :
  PyStr.contains sub s = false → String.index 0 sub s = None.
Proof. unfold PyStr.contains. by destruct (String.index 0 sub s). Qed.

Lemma prefix_nil_l (s : string) : String.prefix "" s = true.
Proof. by destruct s. Qed.

Lemma prefix_cons_cons (a b : ascii) (s1 s2 : string) :
  String.prefix (String a s1) (String b s2)
  = if decide (a = b) then String.prefix s1 s2 else false.
Proof. simpl. destruct (ascii_dec a b); case_decide; congruence. Qed.

Lemma index_0_cons (sub : string) (b : ascii) (s : string) :
  String.index 0 sub (String b s)
  = if String.prefix sub (String b s) then Some 0%nat
    else S <$> String.index 0 sub s.
Proof.
  simpl. destruct (String.prefix sub (String b s)); [done|].
  by destruct (String.index 0 sub s).
Qed.

(** Evaluate a search or a prefix test on a string whose first characters
    are known. *)
Ltac str_step :=
  first [ rewrite index_0_cons | rewrite prefix_cons_cons | rewrite prefix_nil_l
        | rewrite decide_True by done | rewrite decide_False by done ].

Ltac str_eval := repeat str_step; cbn [fmap option_fmap option_map].

(** [(p + "/" + name).split("/")] is [[p, name]] when neither part holds a
    slash; here for the three shorthand prefixes. *)
Lemma split_after_r (name : string) :
  String.index 0 "/" name = None →
  PyStr.split "/" (String "r" (String "/" name)) = ["r"; name].
Proof.
  intros Hs. unfold PyStr.split. cbn [String.length PyStr.split_fuel].
  str_eval. unfold PyStr.from. cbn [String.length substring Nat.add Nat.sub].
  by rewrite Nat.sub_0_r, substring_all, Hs.
Qed.

Lemma split_after_u (name : string) :
  String.index 0 "/" name = None →
  PyStr.split "/" (String "u" (String "/" name)) = ["u"; name].
Proof.
  intros Hs. unfold PyStr.split. cbn [String.length PyStr.split_fuel].
  str_eval. unfold PyStr.from. cbn [String.length substring Nat.add Nat.sub].
  by rewrite Nat.sub_0_r, substring_all, Hs.
Qed.

Lemma split_after_user (name : string) :
  String.index 0 "/" name = None →
  PyStr.split "/" (String "u" (String "s" (String "e" (String "r" (String "/" name)))))
  = ["user"; name].
Proof.
  intros Hs. unfold PyStr.split. cbn [String.length PyStr.split_fuel].
  str_eval. unfold PyStr.from. cbn [String.length substring Nat.add Nat.sub].
  by rewrite Nat.sub_0_r, substring_all, Hs.
Qed.

Lemma parse_shorthand (name : string) :
  PyStr.contains "/" name = false →
  PyStr.contains "reddit.com" name = false →
  RedditScraper.parse_target ("r/" +:+ name)
  = Returned (RedditScraper.fresh false name)
  ∧ RedditScraper.parse_target ("u/" +:+ name)
    = Returned (RedditScraper.fresh true name)
  ∧ RedditScraper.parse_target ("user/" +:+ name)
    = Returned (RedditScraper.fresh true name).
Proof.
  intros Hs Hr. apply contains_false in Hs, Hr.
  unfold RedditScraper.parse_target, PyStr.contains, PyStr.startswith.
  change ("r/" +:+ name) with (String "r" (String "/" name)).
  change ("u/" +:+ name) with (String "u" (String "/" name)).
  change ("user/" +:+ name)
    with (String "u" (String "s" (String "e" (String "r" (String "/" name))))).
  split; [|split].
  - str_eval. rewrite Hr. cbn -[PyStr.split]. by rewrite split_after_r.
  - str_eval. rewrite Hr. cbn -[PyStr.split]. by rewrite split_after_u.
  - str_eval. rewrite Hr. cbn -[PyStr.split]. by rewrite split_after_user.
Qed.

(** X15. The shorthand forms are read back exactly: for a name that holds
    no slash and does not mention [reddit.com], the targets [r/name],
    [u/name] and [user/name] give a scraper for that very name, in
    subreddit mode for [r/] and in user mode for [u/] and [user/]; the
    constructor returns it unless its [print] or the construction of a
    collaborator raises. *)
Theorem init_reads_shorthand (E : Collab) (name : string) (s : Sys E) :
  PyStr.contains "/" name = false →
  PyStr.contains "reddit.com" name = false →
  let built (self : RedditScraper.t) :=
    match construct_components E (world s) with
    | (Some e, w) => (Raised e, mkSys w (trace s))
    | (None, w) => (Returned self, mkSys w (trace s))
    end in
  (RedditScraper.parse_target ("r/" +:+ name)
   = Returned (RedditScraper.fresh false name)
   ∧ RedditScraper.parse_target ("u/" +:+ name)
     = Returned (RedditScraper.fresh true name)
   ∧ RedditScraper.parse_target ("user/" +:+ name)
     = Returned (RedditScraper.fresh true name))
  ∧ RedditScraper.__init__ E ("r/" +:+ name) s
    = built (RedditScraper.fresh false name)
  ∧ RedditScraper.__init__ E ("u/" +:+ name) s
    = built (RedditScraper.fresh true name)
  ∧ RedditScraper.__init__ E ("user/" +:+ name) s
    = built (RedditScraper.fresh true name).
Proof.
  intros Hs Hr built.
  destruct (parse_shorthand name Hs Hr) as (Pr & Pu & Puser).
  split; [done|]. subst built.
  split; [|split]; by apply init_by_parse.
Qed.

Lemma init_reads_shorthand_witness :
  let s := Script.start [] [] [] in
  RedditScraper.__init__ Script.env ("r/" +:+ "python") s
  = (Returned (RedditScraper.fresh false "python"), s)
  ∧ RedditScraper.__init__ Script.env ("u/" +:+ "python") s
    = (Returned (RedditScraper.fresh true "python"), s)
  ∧ RedditScraper.__init__ Script.env ("user/" +:+ "python") s
    = (Returned (RedditScraper.fresh true "python"), s).
Proof.
  intros s.
  apply (init_reads_shorthand Script.env "python" s); reflexivity.
Defined.

(** ** reddit_system.py: the quality filter *)

(** X16. The quality filters nest: a row that passes ['high_quality']
    passes ['medium_plus'], and a row that passes ['medium_plus'] passes
    ['exclude_low']. *)
Theorem quality_filters_nest (post : RedditSystem.Row) :
  implb (RedditSystem._passes_quality_filter post "high_quality")
        (RedditSystem._passes_quality_filter post "medium_plus") = true
  ∧ implb (RedditSystem._passes_quality_filter post "medium_plus")
          (RedditSystem._passes_quality_filter post "exclude_low") = true.
Proof.
  unfold RedditSystem._passes_quality_filter. cbn [String.eqb Ascii.eqb Bool.eqb].
  cbn beta iota.
  set (r := post !! "quality_recommendation").
  split; repeat case_bool_decide; try done; simpl.
  - exfalso. set_solver.
  - exfalso. set_solver.
Qed.

(** X17. A row without the key ['quality_recommendation'] is dropped by
    the filters ['high_quality'] and ['medium_plus'] and kept by every
    other filter type, ['exclude_low'] included. *)
Theorem quality_filter_missing_recommendation (post : RedditSystem.Row)
    (filter_type : string) :
  post !! "quality_recommendation" = None →
  RedditSystem._passes_quality_filter post filter_type
  = bool_decide (filter_type ≠ "high_quality" ∧ filter_type ≠ "medium_plus").
Proof.
  intros Hnone. unfold RedditSystem._passes_quality_filter. rewrite Hnone.
  destruct (String.eqb_spec filter_type "all") as [->|Hall]; [done|].
  destruct (String.eqb_spec filter_type "high_quality") as [->|Hhigh].
  { rewrite bool_decide_eq_false_2 by done.
    symmetry. apply bool_decide_eq_false_2. by intros [? _]. }
  destruct (String.eqb_spec filter_type "medium_plus") as [->|Hmed].
  { rewrite bool_decide_eq_false_2 by set_solver.
    symmetry. apply bool_decide_eq_false_2. by intros [_ ?]. }
  rewrite (bool_decide_eq_true_2 (_ ∧ _)) by done.
  destruct (String.eqb filter_type "exclude_low"); [|done].
  by apply bool_decide_eq_true_2.
Qed.

Lemma quality_filter_missing_recommendation_witness :
  RedditSystem._passes_quality_filter (<["title" := VStr "t"]> ∅) "exclude_low"
  = true
  ∧ RedditSystem._passes_quality_filter (<["title" := VStr "t"]> ∅) "medium_plus"
    = false.
Proof.
  rewrite !(quality_filter_missing_recommendation (<["title" := VStr "t"]> ∅))
    by reflexivity.
  split; reflexivity.
Defined.

(** X18. A filter type the code does not know (anything but
    ['high_quality'], ['medium_plus'] and ['exclude_low']) keeps every
    row. *)
Theorem quality_filter_unknown_type_keeps_all (post : RedditSystem.Row)
    (filter_type : string) :
  filter_type ∉ ["high_quality"; "medium_plus"; "exclude_low"] →
  RedditSystem._passes_quality_filter post filter_type = true.
Proof.
  intros Hunknown. unfold RedditSystem._passes_quality_filter.
  destruct (String.eqb_spec filter_type "all"); [done|].
  destruct (String.eqb_spec filter_type "high_quality") as [->|_]; [set_solver|].
  destruct (String.eqb_spec filter_type "medium_plus") as [->|_]; [set_solver|].
  destruct (String.eqb_spec filter_type "exclude_low") as [->|_]; [set_solver|].
  done.
Qed.

Lemma quality_filter_unknown_type_keeps_all_witness :
  RedditSystem._passes_quality_filter
    (<["quality_recommendation" := VStr "exclude"]> ∅) "high-quality"
  = true.
Proof.
  apply quality_filter_unknown_type_keeps_all.
  apply (bool_decide_unpack _). vm_compute. exact I.
Defined.

(** ** reddit_system.py: [scrape_posts] *)

(** The parser returns for every target, with the counters at zero. *)
Lemma parse_returns (target : string) :
  ∃ scraper : RedditScraper.t,
    RedditScraper.parse_target target = Returned scraper
    ∧ RedditScraper.scraped_count scraper = 0.
Proof.
  unfold RedditScraper.parse_target.
  assert (∀ (user_mode : bool) (name : Outcome string),
            (∃ x, name = Returned x) →
            ∃ scraper, RedditScraper.with_name user_mode name = Returned scraper
                       ∧ RedditScraper.scraped_count scraper = 0) as Hname.
  { intros user_mode name [x ->]. by eexists. }
  repeat match goal with
         | |- context [if ?b then _ else _] => destruct b
         end;
    first [ apply Hname; first [apply name_after_returns | apply last_split_returns]
          | by eexists ].
Qed.

(** Step 1 of [scrape] without keywords makes no search call. *)
Lemma fetch_post_urls_no_search (E : Collab) (self : RedditScraper.t)
    (max_posts : Z) (sort_type : string) (keywords : option (list string))
    (s : Sys E) :
  SubredditScraper.truthy keywords = false →
  ∃ evs : list Event,
    trace (RedditScraper.fetch_post_urls E self max_posts sort_type keywords s).2
    = trace s ++ evs
    ∧ Forall (λ ev, is_search_event ev = false) evs.
Proof.
  intros Hkw. unfold RedditScraper.fetch_post_urls.
  destruct (RedditScraper.is_user_mode self).
  - destruct (fetch_user_posts E _ _ _) as [posts w]. simpl.
    eexists. split; [done|]. by repeat constructor.
  - destruct (coordinator_shape E (RedditScraper.target_name self) max_posts
                sort_type keywords s) as (_ & evs & Htr & Hev).
    eexists. split; [exact Htr|].
    constructor; [done|].
    eapply Forall_impl; [exact Hev|].
    intros [] Hok; simpl in *; try done; [destruct Hok as [Hok _]|]; congruence.
Qed.

(** A whole [scrape] without keywords makes no search call either. *)
Lemma scrape_no_search (E : Collab) (self : RedditScraper.t) (max_posts : Z)
    (sort_type : string) (keywords : option (list string))
    (progress_callback : option (Callback E)) (s : Sys E) :
  SubredditScraper.truthy keywords = false →
  ∃ evs : list Event,
    trace (RedditScraper.scrape E self max_posts sort_type keywords
             progress_callback s).2
    = trace s ++ evs
    ∧ Forall (λ ev, is_search_event ev = false) evs.
Proof.
  intros Hkw.
  destruct (scrape_by_details E self max_posts sort_type keywords
              progress_callback s) as [_ Htr].
  cbv zeta in Htr. rewrite Htr.
  set (fetched := RedditScraper.fetch_post_urls E self max_posts sort_type keywords s).
  set (new_urls := filter _ fetched.1).
  destruct (fetch_details_spec E max_posts progress_callback new_urls
              (len new_urls) 1 (RedditScraper.scraped_count self) fetched.2)
    as (_ & _ & detailed & _ & Hdet).
  destruct (fetch_post_urls_no_search E self max_posts sort_type keywords s Hkw)
    as (evs & Hfetch & Hev).
  fold fetched in Hfetch.
  exists (evs ++ (EvScrapePost <$> detailed.*1)). split.
  - rewrite Hdet, Hfetch, <- app_assoc. done.
  - apply Forall_app. split; [done|]. by apply Forall_fmap, Forall_true.
Qed.

(** What [scrape] returns for a scraper that has scraped nothing yet. *)
Lemma scrape_fresh_result (E : Collab) (self : RedditScraper.t) (max_posts : Z)
    (sort_type : string) (keywords : option (list string))
    (progress_callback : option (Callback E)) (s : Sys E) :
  RedditScraper.scraped_count self = 0 →
  let fetched := RedditScraper.fetch_post_urls E self max_posts sort_type keywords s in
  let result :=
    (RedditScraper.scrape E self max_posts sort_type keywords progress_callback s).1.1 in
  (fetched.1 = [] ∧ result = Returned RedditScraper.error_result)
  ∨ (fetched.1 ≠ []
     ∧ ∃ (d : gmap string Value) (n : Z),
         result = Returned d
         ∧ d !! "status" = Some (VStr "success")
         ∧ d !! "scraped_count" = Some (VInt n)
         ∧ 0 ≤ n ≤ Z.max 0 max_posts).
Proof.
  intros Hfresh fetched result. subst fetched result. unfold RedditScraper.scrape.
  destruct (RedditScraper.fetch_post_urls E self max_posts sort_type keywords s)
    as [post_urls s1].
  destruct post_urls as [|c rest]; cbv beta iota zeta delta [fst snd]; [by left|].
  right. split; [done|].
  rewrite (filter_existing_posts_spec E (c :: rest) RedditScraper.default_batch_size)
    by (unfold RedditScraper.default_batch_size; lia).
  destruct (filter _ (c :: rest)) as [|c' new_urls].
  - exists RedditScraper.all_scraped_result, 0. split; [done|].
    split; [apply status_all_scraped_result|]. split; [|lia].
    unfold RedditScraper.all_scraped_result.
    rewrite lookup_insert_ne by done. apply lookup_insert_eq.
  - destruct (fetch_details_spec E max_posts progress_callback (c' :: new_urls)
                (len (c' :: new_urls)) 1 (RedditScraper.scraped_count self) s1)
      as (H1 & H2 & _).
    destruct (RedditScraper.fetch_details E _ _ _ _ _ _ s1) as [count s2].
    simpl in H1, H2. rewrite Hfresh in H1, H2.
    eexists _, count. split; [done|].
    split; [apply status_success_result|]. split; [|lia].
    unfold RedditScraper.success_result.
    rewrite lookup_insert_ne by done. apply lookup_insert_eq.
Qed.

(** X19. [RedditSystem.scrape_posts] passes no keywords on, so a run
    started through it never invokes the search strategy and never sends a
    search request, whatever the target and the strategy. *)
Theorem scrape_posts_never_searches (E : Collab) (imported : option PyExn)
    (target : string) (target_count : Z) (strategy : string) (save_json : bool)
    (s : Sys E) :
  ∃ evs : list Event,
    trace (RedditSystem.scrape_posts E imported target target_count strategy
             save_json s).2
    = trace s ++ evs
    ∧ Forall (λ ev, is_search_event ev = false) evs.
Proof.
  unfold RedditSystem.scrape_posts.
  destruct imported as [e|].
  { exists []. split; [by rewrite app_nil_r | constructor]. }
  unfold RedditScraper.scrape_reddit.
  destruct (parse_returns target) as (scraper & Hparse & _).
  rewrite (init_by_parse E target scraper s Hparse).
  destruct (construct_components E (world s)) as [[e|] w].
  { exists []. split; [by rewrite app_nil_r | constructor]. }
  set (s0 := mkSys w (trace s)).
  destruct (scrape_no_search E scraper target_count
              (RedditSystem.resolve_strategy strategy target_count) None None s0
              eq_refl) as (evs & Htr & Hev).
  destruct (RedditScraper.scrape E scraper _ _ None None s0) as [[result self'] s'].
  simpl in Htr.
  exists evs. split; [|done].
  destruct result as [d|e]; [|done].
  destruct (d !! "status") as [st|]; [|done].
  case_bool_decide; [|done].
  by destruct (d !! "scraped_count").
Qed.

(** X20. What [RedditSystem.scrape_posts] answers. When importing the
    scraper module raises, or the constructor's [print] or a collaborator's
    construction raises, the answer is the error
    ['Scraping failed: ' + str(e)] and no strategy is called. Otherwise the
    answer is [{'status': 'error', 'message': 'No posts found'}] exactly
    when the strategies list no candidate, and else
    [{'status': 'success', ..., 'posts_scraped': n}] with
    [0 <= n <= max(0, target_count)]: a run never reports more posts than
    were asked for. *)
Theorem scrape_posts_reports_count_within_target (E : Collab)
    (imported : option PyExn) (target : string) (target_count : Z)
    (strategy : string) (save_json : bool) (s : Sys E) :
  let answer :=
    RedditSystem.scrape_posts E imported target target_count strategy save_json s in
  match imported with
  | Some e => answer = (RedditSystem.scraping_failed e, s)
  | None =>
      match construct_components E (world s) with
      | (Some e, w) =>
          answer = (RedditSystem.scraping_failed e, mkSys w (trace s))
      | (None, w) =>
          ∃ scraper : RedditScraper.t,
            RedditScraper.parse_target target = Returned scraper
            ∧ let fetched :=
                RedditScraper.fetch_post_urls E scraper target_count
                  (RedditSystem.resolve_strategy strategy target_count) None
                  (mkSys w (trace s)) in
              (fetched.1 = []
               ∧ answer.1 = RedditSystem.scrape_error (VStr "No posts found"))
              ∨ (fetched.1 ≠ []
                 ∧ ∃ n : Z, 0 ≤ n ≤ Z.max 0 target_count
                            ∧ answer.1 = RedditSystem.scrape_success (VInt n))
      end
  end.
Proof.
  intros answer. subst answer. unfold RedditSystem.scrape_posts.
  destruct imported as [e|]; [done|].
  unfold RedditScraper.scrape_reddit.
  destruct (parse_returns target) as (scraper & Hparse & Hfresh).
  rewrite (init_by_parse E target scraper s Hparse).
  destruct (construct_components E (world s)) as [[e|] w]; [done|].
  set (s0 := mkSys w (trace s)).
  exists scraper. split; [exact Hparse|]. cbv zeta.
  destruct (scrape_fresh_result E scraper target_count
              (RedditSystem.resolve_strategy strategy target_count) None None s0
              Hfresh) as [[Hnil Hres] | (Hne & d & n & Hres & Hst & Hcount & Hn)].
  - left. split; [done|].
    destruct (RedditScraper.scrape E scraper _ _ None None s0) as [[result self'] s'].
    simpl in Hres. subst result. simpl.
    rewrite status_error_result. rewrite bool_decide_eq_false_2 by done.
    unfold RedditScraper.error_result.
    rewrite lookup_insert_ne by done. by rewrite lookup_insert_eq.
  - right. split; [done|]. exists n. split; [done|].
    destruct (RedditScraper.scrape E scraper _ _ None None s0) as [[result self'] s'].
    simpl in Hres. subst result. simpl.
    rewrite Hst. rewrite bool_decide_eq_true_2 by done. by rewrite Hcount.
Qed.

(** Where annotations are evaluated when a [def] runs, the import fails
    and that is all [scrape_posts] does. *)
Example scrape_posts_without_tuple :
  RedditSystem.scrape_posts Script.env (RedditSystem.import_scraper true)
    "r/python" 5 "auto" false
    (Script.start [[Script.cand "a"]] [] [])
  = (RedditSystem.scrape_error
       (VStr "Scraping failed: name 'Tuple' is not defined"),
     Script.start [[Script.cand "a"]] [] []).
Proof. reflexivity. Qed.

Example scrape_posts_with_tuple :
  (RedditSystem.scrape_posts Script.env (RedditSystem.import_scraper false)
     "r/python" 5 "auto" false
     (Script.start [[Script.cand "a"]] [] [])).1
  = RedditSystem.scrape_success (VInt 1).
Proof. vm_compute. reflexivity. Qed.

(** ** reddit_system.py: [export_professional_csv] *)

Section CsvExport.
Context {Summary : Type} (H : RedditSystem.Helpers Summary)
        (quality_filter : string).
Hypothesis writes_succeed : ∀ row, RedditSystem.row_write_fails H row = None.

Local Abbreviation rows_of :=
  (λ posts : list RedditSystem.Row,
     concat (RedditSystem.dataset_row H quality_filter <$> posts)).

Lemma writerows_ok (rows : list RedditSystem.Row) :
  RedditSystem.writerows H rows = (rows, None).
Proof.
  induction rows as [|row rest IH]; simpl; [done|].
  by rewrite writes_succeed, IH.
Qed.

Lemma write_batch_ok (st : RedditSystem.Writer) :
  RedditSystem.write_batch H st
  = ({| RedditSystem.batch_to_write := [];
        RedditSystem.exported_count :=
          RedditSystem.exported_count st + len (RedditSystem.batch_to_write st);
        RedditSystem.processed_count := RedditSystem.processed_count st;
        RedditSystem.written :=
          RedditSystem.written st ++ [RedditSystem.batch_to_write st];
        RedditSystem.file_rows :=
          RedditSystem.file_rows st ++ RedditSystem.batch_to_write st |}, None).
Proof. unfold RedditSystem.write_batch. by rewrite writerows_ok. Qed.

Lemma writer_inv_start : writer_inv [] (RedditSystem.mkWriter [] 0 0 [] []).
Proof.
  unfold writer_inv, RedditSystem.batch_size. simpl.
  rewrite len_nil. repeat split; try lia. constructor.
Qed.

(** One post: its dataset row, if it has one, joins the pending batch,
    which is written out as soon as it is full. *)
Lemma export_post_inv (rows : list RedditSystem.Row) (st : RedditSystem.Writer)
    (post_data : RedditSystem.Row) :
  writer_inv rows st →
  writer_inv (rows ++ RedditSystem.dataset_row H quality_filter post_data)
             (RedditSystem.export_post H quality_filter st post_data).
Proof.
  intros (Hshort & Hexp & Hproc & Hrows & Hfile & Hfull).
  unfold RedditSystem.export_post, RedditSystem.dataset_row.
  destruct (RedditSystem.create_dataset_ready_row H _) as [row|].
  2: { rewrite app_nil_r. by repeat split. }
  destruct (RedditSystem._passes_quality_filter row quality_filter).
  2: { rewrite app_nil_r.
       rewrite (proj2 (Z.leb_gt _ _)) by lia. by repeat split. }
  cbn [RedditSystem.batch_to_write].
  destruct (RedditSystem.batch_size <=? len (RedditSystem.batch_to_write st ++ [row]))
    eqn:Hflush.
  - apply Z.leb_le in Hflush. rewrite len_app in Hflush.
    rewrite write_batch_ok. unfold writer_inv. simpl.
    rewrite concat_app, !len_app. simpl. rewrite app_nil_r, len_app.
    unfold len in *. simpl in *.
    split; [unfold RedditSystem.batch_size; lia|].
    split; [lia|]. split; [lia|]. split; [|split].
    + rewrite app_nil_r, <- Hrows, <- app_assoc. done.
    + by rewrite Hfile.
    + apply Forall_app. split; [done|]. constructor; [|constructor].
      rewrite length_app. simpl. lia.
  - apply Z.leb_gt in Hflush. unfold writer_inv. simpl.
    rewrite len_app in *. unfold len in *. simpl in *.
    split; [lia|]. split; [lia|]. split; [lia|]. split; [|done].
    rewrite <- Hrows, <- app_assoc. done.
Qed.

Lemma export_fold_inv (posts : list RedditSystem.Row) :
  ∀ (rows : list RedditSystem.Row) (st : RedditSystem.Writer),
    writer_inv rows st →
    writer_inv (rows ++ rows_of posts)
               (foldl (RedditSystem.export_post H quality_filter) st posts).
Proof.
  induction posts as [|post rest IH]; intros rows st Hinv; simpl.
  - by rewrite app_nil_r.
  - rewrite app_assoc. apply IH. by apply export_post_inv.
Qed.

(** The whole loop with its final write, no write failing: every dataset
    row is in the file once and in order, both counters count the rows, and
    the batches are full ones followed by at most one shorter, non-empty
    one. *)
Lemma export_loop_spec (posts : list RedditSystem.Row) :
  ∃ st : RedditSystem.Writer,
    RedditSystem.export_loop H quality_filter posts = (st, None)
    ∧ RedditSystem.file_rows st = rows_of posts
    ∧ RedditSystem.exported_count st = len (rows_of posts)
    ∧ RedditSystem.processed_count st = len (rows_of posts)
    ∧ ∃ full rest : list (list RedditSystem.Row),
        RedditSystem.written st = full ++ rest
        ∧ Forall (λ b, len b = RedditSystem.batch_size) full
        ∧ (length rest ≤ 1)%nat
        ∧ Forall (λ b, 0 < len b < RedditSystem.batch_size) rest.
Proof.
  unfold RedditSystem.export_loop.
  destruct (export_fold_inv posts [] _ writer_inv_start)
    as (Hshort & Hexp & Hproc & Hrows & Hfile & Hfull).
  simpl in Hrows.
  set (st := foldl _ _ posts) in *.
  destruct (RedditSystem.batch_to_write st) as [|row batch] eqn:Hbatch.
  - rewrite app_nil_r in Hrows. rewrite len_nil in Hproc.
    exists st. split; [done|]. split; [by rewrite Hfile|].
    split; [by rewrite Hexp, Hrows|].
    split; [rewrite Hproc, Hexp, Hrows; lia|].
    exists (RedditSystem.written st), []. rewrite app_nil_r.
    split; [done|]. split; [done|]. split; [simpl; lia | constructor].
  - rewrite write_batch_ok. eexists. split; [done|]. simpl. rewrite Hbatch.
    split; [by rewrite Hfile|].
    split; [rewrite Hexp, <- Hrows, len_app; done|].
    split; [rewrite Hproc, Hexp, <- Hrows, len_app; done|].
    exists (RedditSystem.written st), [row :: batch].
    split; [done|]. split; [done|]. split; [simpl; lia|].
    constructor; [|constructor]. split; [|done].
    unfold len. simpl. lia.
Qed.

End CsvExport.

(** X21. When the CSV file can be opened and the CSV writer raises on no
    row, the data rows [export_professional_csv] leaves in the file are
    exactly the standardized rows that pass the quality filter, each once
    and in the order of the posts: neither the batching nor a post the
    standardizer fails on loses or repeats a row. *)
Theorem export_writes_every_passing_row (Summary : Type)
    (H : RedditSystem.Helpers Summary) (posts : list RedditSystem.Row)
    (output_file : option string) (quality_filter : string) :
  (∀ f : string, RedditSystem.csv_open H f = None) →
  (∀ row : RedditSystem.Row, RedditSystem.row_write_fails H row = None) →
  RedditSystem.file_rows
    (RedditSystem.export_professional_csv H posts output_file quality_filter).2
  = concat (RedditSystem.dataset_row H quality_filter <$> posts).
Proof.
  intros Hopen Hwrite. unfold RedditSystem.export_professional_csv.
  rewrite Hopen.
  destruct (export_loop_spec H quality_filter Hwrite posts)
    as (st & -> & Hrows & _).
  destruct (RedditSystem.exported_count _ =? 0); [done|].
  by destruct (RedditSystem.generate_summary H _ _ _ _).
Qed.

Lemma export_writes_every_passing_row_witness :
  let posts : list RedditSystem.Row :=
    [<["id" := VStr "a"]> (<["quality_recommendation" := VStr "high_quality"]> ∅);
     <["title" := VStr "no id"]> ∅;
     <["id" := VStr "c"]> (<["quality_recommendation" := VStr "exclude"]> ∅)] in
  RedditSystem.file_rows
    (RedditSystem.export_professional_csv script_helpers posts None
       "exclude_low").2
  = concat (RedditSystem.dataset_row script_helpers "exclude_low" <$> posts).
Proof.
  intros posts.
  apply (export_writes_every_passing_row unit script_helpers posts None
           "exclude_low"); reflexivity.
Defined.

(** X22. When the CSV writer raises on no row, [export_professional_csv]
    hands the rows to it in batches of exactly 500, followed by at most one
    last batch that is shorter and not empty. *)
Theorem export_batches_are_full_but_last (Summary : Type)
    (H : RedditSystem.Helpers Summary) (posts : list RedditSystem.Row)
    (output_file : option string) (quality_filter : string) :
  (∀ row : RedditSystem.Row, RedditSystem.row_write_fails H row = None) →
  ∃ full rest : list (list RedditSystem.Row),
    RedditSystem.written
      (RedditSystem.export_professional_csv H posts output_file quality_filter).2
    = full ++ rest
    ∧ Forall (λ b, len b = 500) full
    ∧ (length rest ≤ 1)%nat
    ∧ Forall (λ b, 0 < len b < 500) rest.
Proof.
  intros Hwrite. unfold RedditSystem.export_professional_csv.
  destruct (RedditSystem.csv_open H _).
  { exists [], []. repeat split; simpl; try lia; constructor. }
  destruct (export_loop_spec H quality_filter Hwrite posts)
    as (st & -> & _ & _ & _ & Hbatches).
  destruct (RedditSystem.exported_count _ =? 0); [done|].
  by destruct (RedditSystem.generate_summary H _ _ _ _).
Qed.

Lemma export_batches_are_full_but_last_witness :
  let posts : list RedditSystem.Row :=
    [<["id" := VStr "a"]> ∅; <["id" := VStr "b"]> ∅] in
  ∃ full rest : list (list RedditSystem.Row),
    RedditSystem.written
      (RedditSystem.export_professional_csv script_helpers posts None "all").2
    = full ++ rest
    ∧ Forall (λ b, len b = 500) full
    ∧ (length rest ≤ 1)%nat
    ∧ Forall (λ b, 0 < len b < 500) rest.
Proof.
  intros posts.
  apply (export_batches_are_full_but_last unit script_helpers posts None "all").
  reflexivity.
Defined.

(** X23. When the CSV file can be opened and the CSV writer raises on no
    row, the answer of [export_professional_csv] is fixed by the rows that
    pass: with none, the error ['No posts found matching criteria']; with
    some, the success that reports their number both as [total_posts] and
    as [processed_posts], unless writing the summary raises [e], which
    gives the error ['Export failed: ' + str(e)]. *)
Theorem export_reports_rows_written (Summary : Type)
    (H : RedditSystem.Helpers Summary) (posts : list RedditSystem.Row)
    (output_file : option string) (quality_filter : string) :
  (∀ f : string, RedditSystem.csv_open H f = None) →
  (∀ row : RedditSystem.Row, RedditSystem.row_write_fails H row = None) →
  let rows := concat (RedditSystem.dataset_row H quality_filter <$> posts) in
  let file := RedditSystem.export_file H output_file in
  (RedditSystem.export_professional_csv H posts output_file quality_filter).1
  = match rows with
    | [] => RedditSystem.ExportError "No posts found matching criteria"
    | _ :: _ =>
        match RedditSystem.generate_summary H file (len rows) (len rows)
                quality_filter with
        | Returned summary =>
            RedditSystem.ExportSuccess file (len rows) (len rows) summary
        | Raised e =>
            RedditSystem.ExportError ("Export failed: " +:+ exn_str e)
        end
    end.
Proof.
  intros Hopen Hwrite rows file. unfold RedditSystem.export_professional_csv.
  fold file. rewrite Hopen.
  destruct (export_loop_spec H quality_filter Hwrite posts)
    as (st & -> & _ & Hexp & Hproc & _).
  fold rows in Hexp, Hproc. rewrite Hexp, Hproc.
  destruct rows as [|row rows']; [done|].
  rewrite (proj2 (Z.eqb_neq _ _)) by (unfold len; simpl; lia).
  by destruct (RedditSystem.generate_summary H file _ _ _).
Qed.

Lemma export_reports_rows_written_witness :
  let posts : list RedditSystem.Row :=
    [<["id" := VStr "a"]> (<["quality_recommendation" := VStr "high_quality"]> ∅);
     <["title" := VStr "no id"]> ∅;
     <["id" := VStr "c"]> (<["quality_recommendation" := VStr "exclude"]> ∅)] in
  (RedditSystem.export_professional_csv script_helpers posts (Some "out.csv")
     "high_quality").1
  = RedditSystem.ExportSuccess "out.csv" 1 1 tt.
Proof.
  intros posts.
  rewrite (export_reports_rows_written unit script_helpers posts
             (Some "out.csv") "high_quality") by reflexivity.
  reflexivity.
Defined.

(** A row the CSV writer raises on: the rows before it in the last batch
    reach the file, the rest never does, and the answer is the error of the
    outer [except]. *)
Example export_with_unwritable_row :
  let helpers :=
    script_helpers_with (λ row, bool_decide (row !! "id" = Some (VStr "b"))) in
  let run :=
    RedditSystem.export_professional_csv helpers
      [<["id" := VStr "a"]> ∅; <["id" := VStr "b"]> ∅; <["id" := VStr "c"]> ∅]
      (Some "out.csv") "all" in
  run.1
  = RedditSystem.ExportError
      "Export failed: 'utf-8' codec can't encode character"
  ∧ (λ row : RedditSystem.Row, row !! "id") <$> RedditSystem.file_rows run.2
    = [Some (VStr "a")].
Proof. cbv zeta. split; vm_compute; reflexivity. Qed.

(** ** reddit_system.py: [analyze_data_quality] *)

Lemma sample_count (A : RedditSystem.Analysis) (posts : list RedditSystem.Row) :
  ∀ st st' : RedditSystem.Sample,
    RedditSystem.sample A posts st = inr st' →
    RedditSystem.count st ≤ RedditSystem.count st'.
Proof.
  induction posts as [|post rest IH]; intros st st' Hrun; simpl in Hrun.
  - injection Hrun as <-. lia.
  - destruct (100 <=? RedditSystem.count st); [injection Hrun as <-; lia|].
    destruct (RedditSystem.standardize A post) as [msg|row]; [done|].
    apply IH in Hrun. simpl in Hrun. lia.
Qed.

(** X24. [analyze_data_quality] never reports success: with no post in the
    store it answers ['No data found'], and with at least one post it
    always ends in the [except] branch with an ['Analysis failed: ...']
    message, since building the result reads the unbound name [result]. *)
Theorem analyze_data_quality_never_succeeds (A : RedditSystem.Analysis)
    (posts : list RedditSystem.Row) :
  RedditSystem.analyze_data_quality A posts !! "status" = Some (VStr "error")
  ∧ ((posts = []
      ∧ RedditSystem.analyze_data_quality A posts
        = RedditSystem.scrape_error (VStr "No data found"))
     ∨ (posts ≠ []
        ∧ ∃ msg : string,
            RedditSystem.analyze_data_quality A posts
            = RedditSystem.analysis_failed msg)).
Proof.
  assert (∀ m : Value, RedditSystem.scrape_error m !! "status" = Some (VStr "error"))
    as Hstatus by (intros m; apply lookup_insert_eq).
  assert ((posts = []
           ∧ RedditSystem.analyze_data_quality A posts
             = RedditSystem.scrape_error (VStr "No data found"))
          ∨ (posts ≠ []
             ∧ ∃ msg : string,
                 RedditSystem.analyze_data_quality A posts
                 = RedditSystem.analysis_failed msg)) as Hcases.
  { destruct posts as [|post rest]; [by left|]. right. split; [done|].
    unfold RedditSystem.analyze_data_quality.
    destruct (RedditSystem.sample A (post :: rest) RedditSystem.initial_sample)
      as [msg|st] eqn:Hrun; [by eexists|].
    simpl in Hrun.
    destruct (RedditSystem.standardize A post) as [msg|row]; [done|].
    apply sample_count in Hrun. simpl in Hrun.
    rewrite (proj2 (Z.eqb_neq _ _)) by lia.
    destruct (RedditSystem.quality_scores st) as [|v vs]; [by eexists|].
    destruct (RedditSystem.average_fails A (v :: vs)); by eexists. }
  split; [|exact Hcases].
  destruct Hcases as [[_ ->] | (_ & msg & ->)]; apply Hstatus.
Qed.
